(** * DaapClient.js: the DAAP packet decoder and the login / catalog protocol

    A shallow embedding of [DaapPacket], the three request handlers,
    [LoginListener], [DaapHttpClient.execute] and the [DaapClient] facade,
    and the properties of the specification checked against them.

    JavaScript strings are sequences of 16-bit code units; the response
    text of the XMLHttpRequest (charset x-user-defined) carries one byte of
    the wire in the low 8 bits of each code unit, which is why the source
    masks every [charCodeAt] with [0xFF].  Numbers that the code computes
    are integers well inside the exact range of a double, so they are
    modelled as [Z], with the 32-bit wrap-around of the bit operators
    written out. *)

From Stdlib Require Import ZArith List String Ascii Bool Lia DecimalString.
From Stdlib Require Import DecimalPos DecimalZ.
From Equations Require Import Equations.
Import ListNotations.

Local Open Scope Z_scope.

(** ** JavaScript primitives used by the source *)

Module Js.

(** A string: its UTF-16 code units. *)
Definition jsstring := list Z.

(** A string literal of the source. *)
Fixpoint lit (s : string) : jsstring :=
  match s with
  | EmptyString => []
  | String c r => Z.of_N (N_of_ascii c) :: lit r
  end.

(** [s.length] *)
Definition len (s : jsstring) : Z := Z.of_nat (List.length s).

(** [a == b] on two strings. *)
Fixpoint streq (a b : jsstring) : bool :=
  match a, b with
  | [], [] => true
  | x :: a', y :: b' => (x =? y) && streq a' b'
  | _, _ => false
  end.

(** [s.charCodeAt(i)]: [None] stands for NaN (index out of range). *)
Definition charCodeAt (s : jsstring) (i : Z) : option Z :=
  if (0 <=? i) && (i <? len s) then nth_error s (Z.to_nat i) else None.

(** [s.substring(indexStart, indexEnd)]: both indices are clamped to
    [0 .. s.length] and swapped when the first exceeds the second. *)
Definition substring (s : jsstring) (indexStart indexEnd : Z) : jsstring :=
  let a := Z.min (Z.max indexStart 0) (len s) in
  let b := Z.min (Z.max indexEnd 0) (len s) in
  let from := Z.min a b in
  let to := Z.max a b in
  firstn (Z.to_nat (to - from)) (skipn (Z.to_nat from) s).

(** ToInt32 of an integral number. *)
Definition toInt32 (z : Z) : Z := (z + 2 ^ 31) mod 2 ^ 32 - 2 ^ 31.

(** ToInt32 of the result of [charCodeAt]: NaN becomes 0. *)
Definition toInt32_num (n : option Z) : Z :=
  match n with
  | Some z => toInt32 z
  | None => 0
  end.

(** [a & b] *)
Definition band (a : option Z) (b : Z) : Z :=
  toInt32 (Z.land (toInt32_num a) (toInt32 b)).

(** [a << b]: the result is a signed 32-bit integer. *)
Definition shl (a b : Z) : Z :=
  toInt32 (Z.shiftl (toInt32 a) (Z.land b 31)).

(** [a >> b]: sign-propagating right shift. *)
Definition sar (a b : Z) : Z :=
  Z.shiftr (toInt32 a) (Z.land b 31).

(** ToString of an integral number: decimal digits, [-] when negative. *)
Definition numToString (z : Z) : jsstring :=
  lit (NilZero.string_of_int (Z.to_int z)).

End Js.

Import Js.

(** ** Exceptions *)

Inductive exn : Type :=
| EndOfPacketException
| TypeError
| Error (message : string).

(** The outcome of a call that may throw. *)
Definition result (A : Type) : Type := (exn + A)%type.

Definition bindR {A B} (r : result A) (k : A -> result B) : result B :=
  match r with
  | inl e => inl e
  | inr a => k a
  end.

(** ** DaapPacket.js *)

Module DaapPacket.

Definition CODE_LENGTH : Z := 4.
Definition SIZE_LENGTH : Z := 4.
Definition HEADER_LENGTH : Z := CODE_LENGTH + SIZE_LENGTH.

(** The private variables of a packet object: [code], [data] and the
    mutable reading position [offset]. *)
Record t : Type := mk {
  code : jsstring;
  data : jsstring;
  offset : Z
}.

(** [readUInt32(data, offset)] *)
Definition readUInt32 (data : jsstring) (offset : Z) : Z :=
  shl (band (charCodeAt data offset) 255) 24
  + shl (band (charCodeAt data (offset + 1)) 255) 16
  + shl (band (charCodeAt data (offset + 2)) 255) 8
  + band (charCodeAt data (offset + 3)) 255.

(** [new DaapPacket(chunk, start)]; [start = None] when the argument is
    omitted. *)
Definition new (chunk : jsstring) (start : option Z) : result t :=
  let start := match start with None => 0 | Some s => s end in
  let offset := 0 in
  let length := len chunk - start in
  if length <? HEADER_LENGTH then inl EndOfPacketException
  else
    let code := substring chunk start (start + CODE_LENGTH) in
    let size := readUInt32 chunk (start + CODE_LENGTH) in
    if length <? HEADER_LENGTH + size then inl EndOfPacketException
    else
      let data :=
        substring chunk (start + HEADER_LENGTH) (start + HEADER_LENGTH + size) in
      inr (mk code data offset).

(** [this.codeEquals(other)] *)
Definition codeEquals (p : t) (other : jsstring) : bool :=
  streq (code p) other.

(** [this.size()] *)
Definition size (p : t) : Z := len (data p) + HEADER_LENGTH.

(** [this.convertToInt()] *)
Definition convertToInt (p : t) : Z := readUInt32 (data p) 0.

(** [this.convertToString()] *)
Definition convertToString (p : t) : jsstring := data p.

(** [this.readNextChunk()]: the child read at the cursor and the packet
    with its cursor advanced; the cursor is left as it was when the
    constructor throws. *)
Definition readNextChunk (p : t) : result (t * t) :=
  bindR (new (data p) (Some (offset p))) (fun r =>
    inr (r, mk (code p) (data p) (offset p + size r))).

(** A successful read consumes at least the 8 bytes of a header, all of
    them inside the payload: the loops below make progress. *)
Lemma readNextChunk_progress (p r p' : t) :
  readNextChunk p = inr (r, p') ->
  code p' = code p /\ data p' = data p /\
  offset p < offset p' /\ offset p + HEADER_LENGTH <= len (data p).
Proof.
  unfold readNextChunk, new, bindR, size, HEADER_LENGTH, CODE_LENGTH, SIZE_LENGTH.
  destruct (len (data p) - offset p <? 4 + 4) eqn:Hh; [discriminate|].
  destruct (len (data p) - offset p <? 4 + 4 + _) eqn:Hb; [discriminate|].
  intros H; injection H as <- <-; cbn.
  apply Z.ltb_ge in Hh.
  match goal with
  | |- context [len ?s + 8] => assert (0 <= len s) by (unfold len; lia)
  end.
  repeat split; lia.
Qed.

Definition inspect {A} (a : A) : {b : A | a = b} := exist _ a eq_refl.

(** The loop of [seekFirst], from the current cursor. *)
Equations? seekFirst_loop (p : t) (refCode : jsstring) : result (option t * t)
  by wf (Z.to_nat (len (data p) - offset p)) lt :=
  seekFirst_loop p refCode with inspect (readNextChunk p) => {
    | exist _ (inr (r, p')) _ with codeEquals r refCode => {
        | true := inr (Some r, p');
        | false := seekFirst_loop p' refCode };
    | exist _ (inl EndOfPacketException) _ := inr (None, p);
    | exist _ (inl e) _ := inl e }.
Proof.
  apply readNextChunk_progress in e as (_ & Hd & Ho & Hl).
  rewrite Hd. unfold HEADER_LENGTH, CODE_LENGTH, SIZE_LENGTH in Hl. lia.
Qed.

(** [this.seekFirst(refCode)]: the cursor is reset, then the loop runs.
    The second component is the packet as the call leaves it. *)
Definition seekFirst (p : t) (refCode : jsstring) : result (option t * t) :=
  seekFirst_loop (mk (code p) (data p) 0) refCode.

(** The loop of [seek], from the current cursor, with the matches pushed
    so far. *)
Equations? seek_loop (p : t) (refCode : jsstring) (acc : list t) : result (list t * t)
  by wf (Z.to_nat (len (data p) - offset p)) lt :=
  seek_loop p refCode acc with inspect (readNextChunk p) => {
    | exist _ (inr (next, p')) _ with codeEquals next refCode => {
        | true := seek_loop p' refCode (acc ++ [next]);
        | false := seek_loop p' refCode acc };
    | exist _ (inl EndOfPacketException) _ := inr (acc, p);
    | exist _ (inl e) _ := inl e }.
Proof.
  all: apply readNextChunk_progress in e as (_ & Hd & Ho & Hl);
    rewrite Hd; unfold HEADER_LENGTH, CODE_LENGTH, SIZE_LENGTH in Hl; lia.
Qed.

(** [this.seek(refCode)] *)
Definition seek (p : t) (refCode : jsstring) : result (list t * t) :=
  seek_loop (mk (code p) (data p) 0) refCode [].

End DaapPacket.

(** ** The objects passed around *)

(** One audio stream, as [createDaapStream] builds it. *)
Module Stream.
Record t : Type := mk {
  uri : jsstring;
  trackNumber : Z;
  title : jsstring;
  album : jsstring;
  artist : jsstring;
  genre : jsstring;
  id : jsstring;
  duration : Z;
  size : Z;
  format : jsstring;
  bitrate : Z;
  year : Z
}.
End Stream.

(** A function supplied by the user of the client.  It is opaque: calling it
    is recorded, with its arguments, and has no other effect. *)
Inductive Callback : Type :=
| UserFunction (name : nat).

Inductive value : Type :=
| VNumber (n : Z)
| VStreams (streams : list Stream.t)
| VUndefined.

Record Call : Type := mkCall {
  callee : Callback;
  args : list value
}.

(** [new LoginListener(aCallback)] *)
Inductive Listener : Type :=
| LoginListener (aCallback : Callback).

(** The three request objects handed to [DaapHttpClient.execute], each with
    the private variables its constructor stores. *)
Inductive RequestHandler : Type :=
| LoginRequestHandler (l : Listener)
| UpdateRequestHandler (aSid : Z) (l : Listener)
| DatabaseRequestHandler (aSid aRid : option Z) (aServer : jsstring) (aCallback : Callback).

(** A request sent by the XMLHttpRequest. *)
Record Request : Type := mkRequest {
  url : jsstring;
  authorization : option jsstring
}.

(** ** The state the code runs in

    The private variables of the [DaapClient] closure and of its
    [DaapHttpClient], the browser (whether its XMLHttpRequest has
    [overrideMimeType], and the requests sent and not yet answered), and
    what an observer sees: the requests sent, the calls of user callbacks
    and the errors no handler caught. *)
Record World : Type := mkWorld {
  ip : jsstring;
  port : option Z;
  server : jsstring;
  sid : option Z;
  rid : option Z;
  encodedPassword : option jsstring;
  overrideMimeType : bool;
  pending : list RequestHandler;
  sent : list Request;
  calls : list Call;
  uncaught : list exn
}.

Definition set_sid (v : option Z) (w : World) : World :=
  mkWorld (ip w) (port w) (server w) v (rid w) (encodedPassword w)
    (overrideMimeType w) (pending w) (sent w) (calls w) (uncaught w).

Definition set_rid (v : option Z) (w : World) : World :=
  mkWorld (ip w) (port w) (server w) (sid w) v (encodedPassword w)
    (overrideMimeType w) (pending w) (sent w) (calls w) (uncaught w).

Definition set_pending (v : list RequestHandler) (w : World) : World :=
  mkWorld (ip w) (port w) (server w) (sid w) (rid w) (encodedPassword w)
    (overrideMimeType w) v (sent w) (calls w) (uncaught w).

Definition set_sent (v : list Request) (w : World) : World :=
  mkWorld (ip w) (port w) (server w) (sid w) (rid w) (encodedPassword w)
    (overrideMimeType w) (pending w) v (calls w) (uncaught w).

Definition set_calls (v : list Call) (w : World) : World :=
  mkWorld (ip w) (port w) (server w) (sid w) (rid w) (encodedPassword w)
    (overrideMimeType w) (pending w) (sent w) v (uncaught w).

Definition set_uncaught (v : list exn) (w : World) : World :=
  mkWorld (ip w) (port w) (server w) (sid w) (rid w) (encodedPassword w)
    (overrideMimeType w) (pending w) (sent w) (calls w) v.

(** Code that reads and writes the state and may throw; the state written
    before a throw stays written. *)
Definition M (A : Type) : Type := World -> result A * World.

Definition ret {A} (a : A) : M A := fun w => (inr a, w).

Definition bind {A B} (m : M A) (k : A -> M B) : M B :=
  fun w =>
    match m w with
    | (inl e, w') => (inl e, w')
    | (inr a, w') => k a w'
    end.

Definition throw {A} (e : exn) : M A := fun w => (inl e, w).

Definition lift {A} (r : result A) : M A := fun w => (r, w).

Definition gets {A} (f : World -> A) : M A := fun w => (inr (f w), w).

Definition modify (f : World -> World) : M unit := fun w => (inr tt, f w).

(** [try { m } catch (e) { h e }] *)
Definition try_catch {A} (m : M A) (h : exn -> M A) : M A :=
  fun w =>
    match m w with
    | (inl e, w') => h e w'
    | (inr a, w') => (inr a, w')
    end.

Declare Scope js_scope.
Delimit Scope js_scope with js.
Notation "x <- m ;; k" := (bind m (fun x => k))
  (at level 61, m at next level, right associativity) : js_scope.
Notation "' pat <- m ;; k" := (bind m (fun x => match x with pat => k end))
  (at level 61, pat pattern, m at next level, right associativity) : js_scope.
Notation "m ;; k" := (bind m (fun _ => k))
  (at level 61, right associativity) : js_scope.
Notation "x <-- r ;; k" := (bindR r (fun x => k))
  (at level 61, r at next level, right associativity) : js_scope.
Local Open Scope js_scope.

(** Calling a user callback. *)
Definition call (f : Callback) (a : list value) : M unit :=
  modify (fun w => set_calls (calls w ++ [mkCall f a]) w).

(** ToString of a session or revision id: [null] before it is set. *)
Definition idToString (v : option Z) : jsstring :=
  match v with
  | None => lit "null"
  | Some n => numToString n
  end.

(** ToString of the [port] argument: [undefined] when it was omitted. *)
Definition portToString (v : option Z) : jsstring :=
  match v with
  | None => lit "undefined"
  | Some n => numToString n
  end.

(** [fields.join()] *)
Fixpoint join (fields : list jsstring) : jsstring :=
  match fields with
  | [] => []
  | [f] => f
  | f :: rest => f ++ lit "," ++ join rest
  end.

(** ** DatabaseRequestHandler.js *)

Definition fields : list jsstring :=
  [lit "dmap.itemid"; lit "daap.songformat"; lit "dmap.itemname";
   lit "daap.songalbum"; lit "daap.songartist"; lit "daap.songgenre";
   lit "daap.songtracknumber"; lit "daap.songtime"; lit "daap.songsize";
   lit "daap.songyear"; lit "daap.songbitrate"].

(** [extractInt(packet, code)].  The cursor that [seekFirst] leaves in
    [packet] is dropped: every [seekFirst] and [seek] starts by resetting
    it (see [seekFirst_cursor] below). *)
Definition extractInt (packet : DaapPacket.t) (code : jsstring) : result Z :=
  bindR (DaapPacket.seekFirst packet code) (fun '(chunk, _) =>
    match chunk with
    | Some chunk => inr (DaapPacket.convertToInt chunk)
    | None => inr (-1)
    end).

(** [extractString(packet, code)] *)
Definition extractString (packet : DaapPacket.t) (code : jsstring) : result jsstring :=
  bindR (DaapPacket.seekFirst packet code) (fun '(chunk, _) =>
    match chunk with
    | Some chunk => inr (DaapPacket.convertToString chunk)
    | None => inr []
    end).

(** [createDaapStream(mlit)], with the [sid] and [server] of the handler. *)
Definition createDaapStream (sid : option Z) (server : jsstring) (mlit : DaapPacket.t)
  : result Stream.t :=
  daapSongId <-- extractInt mlit (lit "miid") ;;
  songFormat <-- extractString mlit (lit "asfm") ;;
  let uri := server ++ lit "/databases/1/items/" ++ numToString daapSongId
             ++ lit "." ++ songFormat ++ lit "?session-id=" ++ idToString sid in
  let id := idToString sid ++ lit "-" ++ numToString daapSongId in
  trackNumber <-- extractInt mlit (lit "astn") ;;
  title <-- extractString mlit (lit "minm") ;;
  album <-- extractString mlit (lit "asal") ;;
  artist <-- extractString mlit (lit "asar") ;;
  genre <-- extractString mlit (lit "asgn") ;;
  duration <-- extractInt mlit (lit "astm") ;;
  size <-- extractInt mlit (lit "assz") ;;
  bitrate <-- extractInt mlit (lit "asbr") ;;
  year <-- extractInt mlit (lit "asyr") ;;
  inr (Stream.mk uri trackNumber title album artist genre id duration size
         songFormat (sar bitrate 16) (sar year 16)).

(** The [for] loop of [handleResponse]: one stream pushed per [mlit]. *)
Fixpoint createDaapStreams (sid : option Z) (server : jsstring)
    (mlits : list DaapPacket.t) (audioStreams : list Stream.t) : result (list Stream.t) :=
  match mlits with
  | [] => inr audioStreams
  | mlit :: rest =>
      stream <-- createDaapStream sid server mlit ;;
      createDaapStreams sid server rest (audioStreams ++ [stream])
  end.

(** ** The three methods of a request object *)

Definition getUri (request : RequestHandler) : jsstring :=
  match request with
  | LoginRequestHandler _ => lit "login"
  | UpdateRequestHandler sid _ => lit "update?session-id=" ++ numToString sid
  | DatabaseRequestHandler sid rid _ _ =>
      lit "databases/1/items?type=music&session-id=" ++ idToString sid
      ++ lit "&revision-id=" ++ idToString rid ++ lit "&meta=" ++ join fields
  end.

(** ** DaapHttpClient *)

(** [httpClient.execute(request)] up to [xhr.send()]: the request is sent
    and waits for its answer. *)
Definition execute (request : RequestHandler) : M unit :=
  w <- gets (fun w => w) ;;
  let url := lit "http://" ++ ip w ++ lit ":" ++ portToString (port w)
             ++ lit "/" ++ getUri request in
  if negb (overrideMimeType w) then
    throw (Error "Your browser does not support binary encoding, aborting ...")
  else
    let header :=
      match encodedPassword w with
      | Some p => Some (lit "Basic " ++ p)
      | None => None
      end in
    modify (fun w => set_pending (pending w ++ [request])
                       (set_sent (sent w ++ [mkRequest url header]) w)).

(** ** LoginListener.js *)

Definition sidUpdated (this : Listener) (aSid : Z) : M unit :=
  modify (set_sid (Some aSid)) ;;
  execute (UpdateRequestHandler aSid this).

Definition ridUpdated (this : Listener) (aRid : Z) : M unit :=
  let 'LoginListener callback := this in
  modify (set_rid (Some aRid)) ;;
  call callback [VNumber 200].

Definition Listener_fail (this : Listener) (code : Z) : M unit :=
  let 'LoginListener callback := this in
  call callback [VNumber code].

(** ** handleResponse and fail of the request objects *)

(** [packet.seekFirst(code).convertToInt()]: a [TypeError] when
    [seekFirst] returned [null]. *)
Definition seekFirst_convertToInt (packet : DaapPacket.t) (code : jsstring) : result Z :=
  bindR (DaapPacket.seekFirst packet code) (fun '(chunk, _) =>
    match chunk with
    | Some chunk => inr (DaapPacket.convertToInt chunk)
    | None => inl TypeError
    end).

Definition handleResponse (request : RequestHandler) (packet : DaapPacket.t) : M unit :=
  match request with
  | LoginRequestHandler l =>
      sid <- lift (seekFirst_convertToInt packet (lit "mlid")) ;;
      sidUpdated l sid
  | UpdateRequestHandler _ l =>
      rid <- lift (seekFirst_convertToInt packet (lit "musr")) ;;
      ridUpdated l rid
  | DatabaseRequestHandler sid _ server callback =>
      ' (mlcl, _) <- lift (DaapPacket.seekFirst packet (lit "mlcl")) ;;
      match mlcl with
      | None => throw TypeError
      | Some mlcl =>
          ' (mlits, _) <- lift (DaapPacket.seek mlcl (lit "mlit")) ;;
          audioStreams <- lift (createDaapStreams sid server mlits []) ;;
          call callback [VNumber 200; VStreams audioStreams]
      end
  end.

Definition fail (request : RequestHandler) (code : Z) : M unit :=
  match request with
  | LoginRequestHandler l => Listener_fail l code
  | UpdateRequestHandler _ l => Listener_fail l code
  | DatabaseRequestHandler _ _ _ callback => call callback [VNumber code; VUndefined]
  end.

(** [xhr.onreadystatechange] once [readyState] is 4. *)
Definition onreadystatechange (request : RequestHandler) (status : Z)
    (responseText : jsstring) : M unit :=
  if negb (status =? 200) then fail request status
  else
    try_catch
      (packet <- lift (DaapPacket.new responseText None) ;;
       handleResponse request packet)
      (fun e =>
         match e with
         | EndOfPacketException => fail request 400
         | _ => throw e
         end).

(** ** The transport, scripted *)

(** What the server answers to one request. *)
Record Response : Type := mkResponse {
  status : Z;
  responseText : jsstring
}.

(** The answer to the oldest request that waits for one arrives, and its
    [onreadystatechange] runs; an error it lets through is uncaught. *)
Definition deliver (r : Response) (w : World) : World :=
  match pending w with
  | [] => w
  | request :: rest =>
      match onreadystatechange request (status r) (responseText r) (set_pending rest w) with
      | (inl e, w') => set_uncaught (uncaught w' ++ [e]) w'
      | (inr _, w') => w'
      end
  end.

(** The answers arrive one after the other. *)
Definition run (rs : list Response) (w : World) : World :=
  fold_left (fun w r => deliver r w) rs w.

(** ** DaapClient.js *)

(** [new DaapClient(ip, port)], in a browser whose XMLHttpRequest has
    [overrideMimeType] or not. *)
Definition DaapClient (ip : jsstring) (port : option Z) (browser : bool) : World :=
  let server :=
    match port with
    | None => lit "http://" ++ ip ++ lit ":/3689"
    | Some port => lit "http://" ++ ip ++ lit ":" ++ numToString port
    end in
  mkWorld ip port server None None None browser [] [] [] [].

(** [v == null] *)
Definition isNull (v : option Z) : bool :=
  match v with
  | None => true
  | Some _ => false
  end.

Definition checkLogin : M unit :=
  w <- gets (fun w => w) ;;
  if isNull (sid w) || isNull (rid w) then throw (Error "Login not completed.")
  else ret tt.

Definition login (callback : Callback) : M unit :=
  let l := LoginListener callback in
  let handler := LoginRequestHandler l in
  execute handler.

Definition fetchStreams (callback : Callback) : M unit :=
  checkLogin ;;
  w <- gets (fun w => w) ;;
  let handler := DatabaseRequestHandler (sid w) (rid w) (server w) callback in
  execute handler.

(** ** Notions of the specification *)

Module Spec.
Import DaapPacket.

(** The byte that position [i] of a buffer carries: the low 8 bits of its
    code unit (0 where the buffer has no position [i]). *)
Definition byteAt (s : jsstring) (i : Z) : Z :=
  match charCodeAt s i with
  | Some z => z mod 256
  | None => 0
  end.

(** The big-endian unsigned 32-bit value of the bytes [i .. i+3]. *)
Definition uint32_be (s : jsstring) (i : Z) : Z :=
  byteAt s i * 2 ^ 24 + byteAt s (i + 1) * 2 ^ 16
  + byteAt s (i + 2) * 2 ^ 8 + byteAt s (i + 3).

(** The [n] positions of a buffer that start at position [i]. *)
Definition slice (s : jsstring) (i n : Z) : jsstring :=
  firstn (Z.to_nat n) (skipn (Z.to_nat i) s).

(** [s] begins with [prefix]. *)
Definition startsWith (s prefix : jsstring) : Prop :=
  exists rest, s = prefix ++ rest.

(** The children of a packet from its cursor on: the chunks that
    [readNextChunk] returns one after the other, up to the first read
    that throws. *)
Equations? children_loop (p : t) : list t
  by wf (Z.to_nat (len (data p) - offset p)) lt :=
  children_loop p with inspect (readNextChunk p) => {
    | exist _ (inr (r, p')) _ := r :: children_loop p';
    | exist _ (inl _) _ := [] }.
Proof.
  apply readNextChunk_progress in e as (_ & Hd & Ho & Hl);
    rewrite Hd; unfold HEADER_LENGTH, CODE_LENGTH, SIZE_LENGTH in Hl; lia.
Qed.

(** The immediate children of a packet. *)
Definition children (p : t) : list t :=
  children_loop (mk (code p) (data p) 0).

(** The request that the XMLHttpRequest of [execute] sends for a request
    object: its URL and its Authorization header. *)
Definition requestFor (w : World) (request : RequestHandler) : Request :=
  mkRequest
    (lit "http://" ++ ip w ++ lit ":" ++ portToString (port w) ++ lit "/"
     ++ getUri request)
    (match encodedPassword w with
     | Some p => Some (lit "Basic " ++ p)
     | None => None
     end).

(** The integer that a chunk holds under a tag: that of its first child
    with the tag, -1 when it has none. *)
Definition fieldInt (c : t) (tag : string) : Z :=
  match find (fun r => codeEquals r (lit tag)) (children c) with
  | Some chunk => convertToInt chunk
  | None => -1
  end.

(** The string that a chunk holds under a tag, empty when it has none. *)
Definition fieldString (c : t) (tag : string) : jsstring :=
  match find (fun r => codeEquals r (lit tag)) (children c) with
  | Some chunk => convertToString chunk
  | None => []
  end.

(** The media item of one [mlit] chunk, for the session [sid] on
    [server]: the record that the catalog request is to produce. *)
Definition mediaItem (sid : Z) (server : jsstring) (mlit : t) : Stream.t :=
  let itemId := fieldInt mlit "miid" in
  let format := fieldString mlit "asfm" in
  {| Stream.uri := server ++ lit "/databases/1/items/" ++ numToString itemId
                   ++ lit "." ++ format ++ lit "?session-id=" ++ numToString sid;
     Stream.trackNumber := fieldInt mlit "astn";
     Stream.title := fieldString mlit "minm";
     Stream.album := fieldString mlit "asal";
     Stream.artist := fieldString mlit "asar";
     Stream.genre := fieldString mlit "asgn";
     Stream.id := numToString sid ++ lit "-" ++ numToString itemId;
     Stream.duration := fieldInt mlit "astm";
     Stream.size := fieldInt mlit "assz";
     Stream.format := format;
     Stream.bitrate := Z.shiftr (fieldInt mlit "asbr") 16;
     Stream.year := Z.shiftr (fieldInt mlit "asyr") 16 |}.

(** What the user of a client does, and what the server does. *)
Inductive action : Type :=
| Login (callback : Callback)
| FetchStreams (callback : Callback)
| Answer (r : Response).

Definition step (w : World) (a : action) : World :=
  match a with
  | Login callback => snd (login callback w)
  | FetchStreams callback => snd (fetchStreams callback w)
  | Answer r => deliver r w
  end.

(** The state of a client after a sequence of actions. *)
Definition steps (w : World) (actions : list action) : World :=
  fold_left step actions w.

(** Every stream that a call hands to a callback has a uri that begins
    with [base]. *)
Definition streams_from (base : jsstring) (c : Call) : Prop :=
  forall streams st,
    In (VStreams streams) (args c) -> In st streams ->
    startsWith (Stream.uri st) base.

(** A catalog request object holds [base] as its server. *)
Definition handler_server (base : jsstring) (request : RequestHandler) : Prop :=
  match request with
  | DatabaseRequestHandler _ _ aServer _ => aServer = base
  | _ => True
  end.

(** The states of a client whose server is [base]: the requests that wait
    were built for [base], and so were the streams handed out so far. *)
Definition client_of (base : jsstring) (w : World) : Prop :=
  server w = base /\
  Forall (handler_server base) (pending w) /\
  Forall (streams_from base) (calls w).

(** A piece of code keeps the state that of a client of [base]. *)
Definition keeps {A} (base : jsstring) (m : M A) : Prop :=
  forall w, client_of base w -> client_of base (snd (m w)).

(** The bytes of the payload that the children span. *)
Definition consumed (p : t) : Z :=
  fold_right (fun child n => size child + n) 0 (children p).

(** The read that ends the iteration over the children throws while bytes
    of the payload are left: what follows the last child is not a chunk. *)
Definition malformed (p : t) : Prop := consumed p < len (data p).

End Spec.

Import Spec.

(** ** Buffers used as examples *)

(** The response of DaapPacketTest.html: mlog { mstt = 200, mlid = 31 }.
    The byte 200 is written [-56] there, the code unit 65480. *)
Definition mlog_chunk : jsstring :=
  [109; 108; 111; 103; 0; 0; 0; 24;
   109; 115; 116; 116; 0; 0; 0; 4; 0; 0; 0; 65480;
   109; 108; 105; 100; 0; 0; 0; 4; 0; 0; 0; 31].

(** mlog { mstt = 200, mlid = 15, mlid = 4 }, from the same tests. *)
Definition mlog_two_mlid : jsstring :=
  [109; 108; 111; 103; 0; 0; 0; 36;
   109; 115; 116; 116; 0; 0; 0; 4; 0; 0; 0; 65480;
   109; 108; 105; 100; 0; 0; 0; 4; 0; 0; 0; 15;
   109; 108; 105; 100; 0; 0; 0; 4; 0; 0; 0; 4].

(** A chunk whose length field is 0x80000000 and that has no payload. *)
Definition huge_length_chunk : jsstring :=
  lit "mlog" ++ [128; 0; 0; 0].

(** mlid with the 4-byte payload 80 00 00 00. *)
Definition mlid_0x80000000 : jsstring :=
  lit "mlid" ++ [0; 0; 0; 4; 128; 0; 0; 0].

(** mlog { mlid = 15, then a chunk that announces 9 bytes and has 4 }. *)
Definition mlog_truncated_child : jsstring :=
  lit "mlog" ++ [0; 0; 0; 24]
  ++ lit "mlid" ++ [0; 0; 0; 4; 0; 0; 0; 15]
  ++ lit "mlid" ++ [0; 0; 0; 9; 0; 0; 0; 4].

(** The packet that [mlog_truncated_child] decodes to. *)
Definition truncated_packet : DaapPacket.t :=
  DaapPacket.mk (lit "mlog")
    (lit "mlid" ++ [0; 0; 0; 4; 0; 0; 0; 15] ++ lit "mlid" ++ [0; 0; 0; 9; 0; 0; 0; 4]) 0.

(** The packet that [mlog_chunk] decodes to, and its two children. *)
Definition mlog_packet : DaapPacket.t :=
  DaapPacket.mk (lit "mlog") (skipn 8 mlog_chunk) 0.

Definition mstt_200 : DaapPacket.t := DaapPacket.mk (lit "mstt") [0; 0; 0; 65480] 0.

Definition mlid_31 : DaapPacket.t := DaapPacket.mk (lit "mlid") [0; 0; 0; 31] 0.

(** An answer to the update request: mupd { mstt = 200, musr = 5 }. *)
Definition mupd_chunk : jsstring :=
  lit "mupd" ++ [0; 0; 0; 24]
  ++ lit "mstt" ++ [0; 0; 0; 4; 0; 0; 0; 200]
  ++ lit "musr" ++ [0; 0; 0; 4; 0; 0; 0; 5].

Definition mupd_packet : DaapPacket.t :=
  DaapPacket.mk (lit "mupd") (skipn 8 mupd_chunk) 0.

Definition musr_5 : DaapPacket.t := DaapPacket.mk (lit "musr") [0; 0; 0; 5] 0.

(** An answer with a status and nothing else: mlog { mstt = 200 }. *)
Definition mstt_only_chunk : jsstring :=
  lit "mlog" ++ [0; 0; 0; 12] ++ lit "mstt" ++ [0; 0; 0; 4; 0; 0; 0; 200].

Definition mstt_only_packet : DaapPacket.t :=
  DaapPacket.mk (lit "mlog") (skipn 8 mstt_only_chunk) 0.

(** The wire format of a chunk: tag, big-endian length, payload. *)
Definition uint32_bytes (n : Z) : jsstring :=
  [n / 2 ^ 24 mod 256; n / 2 ^ 16 mod 256; n / 2 ^ 8 mod 256; n mod 256].

Definition chunk (tag : string) (payload : jsstring) : jsstring :=
  lit tag ++ uint32_bytes (len payload) ++ payload.

(** One catalog entry: mlit { miid = 100, asfm = "mp3", minm = "Song" }. *)
Definition mlit_song : jsstring :=
  chunk "mlit" (chunk "miid" (uint32_bytes 100) ++ chunk "asfm" (lit "mp3")
                ++ chunk "minm" (lit "Song")).

(** An answer to the catalog request: adbs { mstt = 200, mlcl { mlit } }. *)
Definition adbs_chunk : jsstring :=
  chunk "adbs" (chunk "mstt" (uint32_bytes 200) ++ chunk "mlcl" mlit_song).

Definition adbs_packet : DaapPacket.t :=
  DaapPacket.mk (lit "adbs") (skipn 8 adbs_chunk) 0.

Definition mlcl_packet : DaapPacket.t :=
  DaapPacket.mk (lit "mlcl") mlit_song 0.

Definition mlit_packet : DaapPacket.t :=
  DaapPacket.mk (lit "mlit") (skipn 8 mlit_song) 0.

(** A client at 10.0.1.6:3690 after a login that gave [sid = 31] and
    [rid = 5]. *)
Definition logged_in : World :=
  run [mkResponse 200 mlog_chunk; mkResponse 200 mupd_chunk]
    (snd (login (UserFunction 0) (DaapClient (lit "10.0.1.6") (Some 3690) true))).

(** ** The wire format, for any tag and payload *)

(** One chunk on the wire: the tag, the length of the payload as four
    big-endian bytes, the payload. *)
Definition encode (tag payload : jsstring) : jsstring :=
  tag ++ uint32_bytes (len payload) ++ payload.

(** The chunks of a list of (tag, payload) pairs, one after the other. *)
Definition encodeAll (items : list (jsstring * jsstring)) : jsstring :=
  flat_map (fun item => encode (fst item) (snd item)) items.

(** The packet object of a (tag, payload) pair, cursor at 0. *)
Definition packetOf (item : jsstring * jsstring) : DaapPacket.t :=
  DaapPacket.mk (fst item) (snd item) 0.

(** A pair that the wire format can carry and the decoder reads back: a tag
    of four code units and a payload shorter than 2^31. *)
Definition wireItem (item : jsstring * jsstring) : Prop :=
  List.length (fst item) = 4%nat /\ len (snd item) < 2 ^ 31.

(** A number read as a signed 16-bit integer. *)
Definition toInt16 (z : Z) : Z := (z + 2 ^ 15) mod 2 ^ 16 - 2 ^ 15.

(** The first two bytes of a payload as a big-endian signed 16-bit
    integer. *)
Definition int16_be (s : jsstring) : Z :=
  toInt16 (byteAt s 0 * 2 ^ 8 + byteAt s 1).

(** The 16-bit integer that a chunk holds under a tag, -1 when it has no
    child with the tag. *)
Definition fieldInt16 (c : DaapPacket.t) (tag : string) : Z :=
  match find (fun r => DaapPacket.codeEquals r (lit tag)) (children c) with
  | Some chunk => int16_be (DaapPacket.data chunk)
  | None => -1
  end.

(** ** What the handlers compute *)

(** The stream that [createDaapStream] builds for an [mlit] chunk, with the
    [sid] and [server] that the handler holds. *)
Definition streamOf (sid : option Z) (server : jsstring) (mlit : DaapPacket.t)
  : Stream.t :=
  let itemId := fieldInt mlit "miid" in
  let format := fieldString mlit "asfm" in
  {| Stream.uri := server ++ lit "/databases/1/items/" ++ numToString itemId
                   ++ lit "." ++ format ++ lit "?session-id=" ++ idToString sid;
     Stream.trackNumber := fieldInt mlit "astn";
     Stream.title := fieldString mlit "minm";
     Stream.album := fieldString mlit "asal";
     Stream.artist := fieldString mlit "asar";
     Stream.genre := fieldString mlit "asgn";
     Stream.id := idToString sid ++ lit "-" ++ numToString itemId;
     Stream.duration := fieldInt mlit "astm";
     Stream.size := fieldInt mlit "assz";
     Stream.format := format;
     Stream.bitrate := Z.shiftr (fieldInt mlit "asbr") 16;
     Stream.year := Z.shiftr (fieldInt mlit "asyr") 16 |}.

(** The call that [fail(code)] of a request object makes. *)
Definition failCall (request : RequestHandler) (code : Z) : Call :=
  match request with
  | LoginRequestHandler (LoginListener f) => mkCall f [VNumber code]
  | UpdateRequestHandler _ (LoginListener f) => mkCall f [VNumber code]
  | DatabaseRequestHandler _ _ _ f => mkCall f [VNumber code; VUndefined]
  end.

(** ** What stays true of a client *)

(** A piece of code keeps a property of the state. *)
Definition preserves (I : World -> Prop) {A} (m : M A) : Prop :=
  forall w, I w -> I (snd (m w)).

(** A request object that waits was built from a state that allowed it: an
    update request after [sid] was set, a catalog request with [sid] and
    [rid] set and for the server of the client. *)
Definition handler_ready (w : World) (request : RequestHandler) : Prop :=
  match request with
  | LoginRequestHandler _ => True
  | UpdateRequestHandler _ _ => sid w <> None
  | DatabaseRequestHandler aSid aRid aServer _ =>
      aSid <> None /\ aRid <> None /\ aServer = server w
  end.

(** A request went to [http://ip:port/...], without Authorization. *)
Definition request_to (ip : jsstring) (port : option Z) (r : Request) : Prop :=
  startsWith (url r) (lit "http://" ++ ip ++ lit ":" ++ portToString port ++ lit "/")
  /\ authorization r = None.

(** The three ways a callback is called: with a status; with a status other
    than 200 and [undefined]; with 200 and an array of streams. *)
Definition call_shape (c : Call) : Prop :=
  (exists code, args c = [VNumber code]) \/
  (exists code, code <> 200 /\ args c = [VNumber code; VUndefined]) \/
  (exists streams, args c = [VNumber 200; VStreams streams]).

(** The states of a client built for [ip] and [port] that was given no
    password. *)
Definition consistent (ip0 : jsstring) (port0 : option Z) (w : World) : Prop :=
  ip w = ip0 /\ port w = port0 /\ encodedPassword w = None /\
  (overrideMimeType w = true \/ pending w = []) /\
  (sid w = None -> rid w = None) /\
  Forall (handler_ready w) (pending w) /\
  Forall (request_to ip0 port0) (sent w) /\
  Forall call_shape (calls w).


(** ** The password

    [DaapHttpClient.setPassword] and [DaapClient.secureLogin].  [btoa] is
    the base64 encoder of the browser; it is not part of the source and
    may throw. *)

Definition set_encodedPassword (v : option jsstring) (w : World) : World :=
  mkWorld (ip w) (port w) (server w) (sid w) (rid w) v
    (overrideMimeType w) (pending w) (sent w) (calls w) (uncaught w).

Section Password.

Variable btoa : jsstring -> result jsstring.

(** [httpClient.setPassword(password)] *)
Definition setPassword (password : jsstring) : M unit :=
  bind (lift (btoa (lit "admin:" ++ password))) (fun encoded =>
    modify (set_encodedPassword (Some encoded))).

(** [client.secureLogin(password, callback)]; [password = None] when the
    argument is [undefined]. *)
Definition secureLogin (password : option jsstring) (callback : Callback) : M unit :=
  bind (match password with
        | Some password => setPassword password
        | None => ret tt
        end) (fun _ =>
    login callback).

End Password.

(** ** src/lib/DatabaseRequestHandler.js

    The file under [lib] is an earlier state of the handler than the one in
    the built client: seven fields are requested and a stream has seven
    properties.  [extractInt] and [extractString] are the same. *)

Module Lib.

Record stream : Type := mk {
  uri : jsstring;
  trackNumber : Z;
  title : jsstring;
  album : jsstring;
  artist : jsstring;
  genre : jsstring;
  id : jsstring
}.

Definition fields : list jsstring :=
  [lit "dmap.itemid"; lit "daap.songformat"; lit "dmap.itemname";
   lit "daap.songalbum"; lit "daap.songartist"; lit "daap.songgenre";
   lit "daap.songtracknumber"].

(** [this.getUri()] *)
Definition getUri (sid rid : option Z) : jsstring :=
  lit "databases/1/items?type=music&session-id=" ++ idToString sid
  ++ lit "&revision-id=" ++ idToString rid ++ lit "&meta=" ++ join fields.

(** [createDaapStream(mlit)] *)
Definition createDaapStream (sid : option Z) (server : jsstring)
    (mlit : DaapPacket.t) : result stream :=
  daapSongId <-- extractInt mlit (lit "miid") ;;
  songFormat <-- extractString mlit (lit "asfm") ;;
  let uri := server ++ lit "/databases/1/items/" ++ numToString daapSongId
             ++ lit "." ++ songFormat ++ lit "?session-id=" ++ idToString sid in
  let id := idToString sid ++ lit "-" ++ numToString daapSongId in
  trackNumber <-- extractInt mlit (lit "astn") ;;
  title <-- extractString mlit (lit "minm") ;;
  album <-- extractString mlit (lit "asal") ;;
  artist <-- extractString mlit (lit "asar") ;;
  genre <-- extractString mlit (lit "asgn") ;;
  inr (mk uri trackNumber title album artist genre id).

End Lib.

(** * Properties *)

(** ** 32-bit arithmetic *)

Lemma toInt32_small (z : Z) : - 2 ^ 31 <= z < 2 ^ 31 -> toInt32 z = z.
Proof. unfold toInt32. intros H. rewrite Z.mod_small; lia. Qed.

Lemma toInt32_high (z : Z) : 2 ^ 31 <= z < 2 ^ 32 -> toInt32 z = z - 2 ^ 32.
Proof.
  unfold toInt32. intros H.
  replace (z + 2 ^ 31) with (z - 2 ^ 31 + 1 * 2 ^ 32) by lia.
  rewrite Z.mod_add by lia. rewrite Z.mod_small; lia.
Qed.

Lemma toInt32_mod256 (z : Z) : toInt32 z mod 256 = z mod 256.
Proof.
  unfold toInt32.
  rewrite (Z.mod_eq (z + 2 ^ 31) (2 ^ 32)) by lia.
  replace (z + 2 ^ 31 - 2 ^ 32 * ((z + 2 ^ 31) / 2 ^ 32) - 2 ^ 31)
    with (z + (- 2 ^ 24 * ((z + 2 ^ 31) / 2 ^ 32)) * 256) by lia.
  apply Z.mod_add. lia.
Qed.

Lemma band_255 (a : option Z) :
  band a 255 = match a with Some z => z mod 256 | None => 0 end.
Proof.
  unfold band. rewrite (toInt32_small 255) by lia.
  change 255 with (Z.ones 8). rewrite Z.land_ones by lia.
  change (2 ^ 8) with 256.
  destruct a as [z|]; cbn [toInt32_num].
  - rewrite toInt32_mod256. apply toInt32_small.
    pose proof (Z.mod_pos_bound z 256). lia.
  - reflexivity.
Qed.

Lemma band_255_byteAt (s : jsstring) (i : Z) :
  band (charCodeAt s i) 255 = byteAt s i.
Proof. apply band_255. Qed.

Lemma byteAt_range (s : jsstring) (i : Z) : 0 <= byteAt s i < 256.
Proof.
  unfold byteAt. destruct (charCodeAt s i) as [z|]; [|lia].
  apply Z.mod_pos_bound. lia.
Qed.

Lemma shl_byte (b n : Z) :
  0 <= b < 256 -> 0 <= n < 32 -> shl b n = toInt32 (b * 2 ^ n).
Proof.
  intros Hb Hn. unfold shl. rewrite (toInt32_small b) by lia.
  change 31 with (Z.ones 5). rewrite Z.land_ones by lia.
  rewrite Z.mod_small by (change (2 ^ 5) with 32; lia).
  rewrite Z.shiftl_mul_pow2 by lia. reflexivity.
Qed.

(** What [readUInt32] returns: the unsigned value read as a signed 32-bit
    integer. *)
Lemma readUInt32_toInt32 (s : jsstring) (i : Z) :
  DaapPacket.readUInt32 s i = toInt32 (uint32_be s i).
Proof.
  unfold DaapPacket.readUInt32, uint32_be. rewrite !band_255_byteAt.
  pose proof (byteAt_range s i) as H0.
  pose proof (byteAt_range s (i + 1)) as H1.
  pose proof (byteAt_range s (i + 2)) as H2.
  pose proof (byteAt_range s (i + 3)) as H3.
  rewrite !shl_byte by lia.
  rewrite (toInt32_small (byteAt s (i + 1) * 2 ^ 16)) by lia.
  rewrite (toInt32_small (byteAt s (i + 2) * 2 ^ 8)) by lia.
  destruct (Z_lt_le_dec (byteAt s i) 128) as [Hlt|Hge].
  - rewrite !toInt32_small by lia. reflexivity.
  - rewrite !toInt32_high by lia. lia.
Qed.

Lemma uint32_be_range (s : jsstring) (i : Z) : 0 <= uint32_be s i < 2 ^ 32.
Proof.
  unfold uint32_be.
  pose proof (byteAt_range s i). pose proof (byteAt_range s (i + 1)).
  pose proof (byteAt_range s (i + 2)). pose proof (byteAt_range s (i + 3)).
  lia.
Qed.

Lemma readUInt32_unsigned (s : jsstring) (i : Z) :
  uint32_be s i < 2 ^ 31 -> DaapPacket.readUInt32 s i = uint32_be s i.
Proof.
  intros H. rewrite readUInt32_toInt32. apply toInt32_small.
  pose proof (uint32_be_range s i). lia.
Qed.

(** ** The constructor *)

Lemma len_nonneg (s : jsstring) : 0 <= len s.
Proof. unfold len. lia. Qed.

Lemma substring_in_range (s : jsstring) (i j : Z) :
  0 <= i <= j -> j <= len s -> substring s i j = slice s i (j - i).
Proof.
  intros Hij Hj. unfold substring, slice.
  rewrite (Z.max_l i 0), (Z.max_l j 0) by lia.
  rewrite (Z.min_l i (len s)), (Z.min_l j (len s)) by lia.
  rewrite (Z.min_l i j), (Z.max_r i j) by lia. reflexivity.
Qed.

Lemma len_slice (s : jsstring) (i n : Z) :
  0 <= i -> 0 <= n -> i + n <= len s -> len (slice s i n) = n.
Proof.
  unfold len, slice. intros Hi Hn Hl.
  rewrite length_firstn, length_skipn. lia.
Qed.

(** The header check of the constructor. *)
Lemma new_header (b : jsstring) (o : Z) :
  len b - o < 8 -> DaapPacket.new b (Some o) = inl EndOfPacketException.
Proof.
  intros H. unfold DaapPacket.new.
  replace (len b - o <? DaapPacket.HEADER_LENGTH) with true; [reflexivity|].
  symmetry. apply Z.ltb_lt. exact H.
Qed.

(** The body check of the constructor, for a length below 2^31. *)
Lemma new_body (b : jsstring) (o : Z) :
  uint32_be b (o + 4) < 2 ^ 31 ->
  8 <= len b - o -> len b - o - 8 < uint32_be b (o + 4) ->
  DaapPacket.new b (Some o) = inl EndOfPacketException.
Proof.
  intros Hu Hh Hb. unfold DaapPacket.new.
  replace (len b - o <? DaapPacket.HEADER_LENGTH) with false
    by (symmetry; apply Z.ltb_ge; exact Hh).
  unfold DaapPacket.CODE_LENGTH. rewrite (readUInt32_unsigned _ _ Hu).
  replace (len b - o <? DaapPacket.HEADER_LENGTH + uint32_be b (o + 4)) with true;
    [reflexivity|].
  symmetry. apply Z.ltb_lt. change DaapPacket.HEADER_LENGTH with 8. lia.
Qed.

(** The packet that the constructor builds, for a length below 2^31. *)
Lemma new_success (b : jsstring) (o : Z) :
  0 <= o -> uint32_be b (o + 4) < 2 ^ 31 ->
  8 <= len b - o -> uint32_be b (o + 4) <= len b - o - 8 ->
  DaapPacket.new b (Some o)
  = inr (DaapPacket.mk (slice b o 4) (slice b (o + 8) (uint32_be b (o + 4))) 0).
Proof.
  intros Ho Hu Hh Hb. unfold DaapPacket.new.
  replace (len b - o <? DaapPacket.HEADER_LENGTH) with false
    by (symmetry; apply Z.ltb_ge; exact Hh).
  unfold DaapPacket.CODE_LENGTH. rewrite (readUInt32_unsigned _ _ Hu).
  replace (len b - o <? DaapPacket.HEADER_LENGTH + uint32_be b (o + 4)) with false
    by (symmetry; apply Z.ltb_ge; change DaapPacket.HEADER_LENGTH with 8; lia).
  change DaapPacket.HEADER_LENGTH with 8.
  pose proof (uint32_be_range b (o + 4)) as Hr.
  rewrite !substring_in_range by lia.
  do 3 f_equal; lia.
Qed.

(** C1, as the code has it.  Decoding at offset [o] throws
    EndOfPacketException, the one exception of the decoder, when fewer than
    8 bytes remain from [o]; for a length field below 2^31 it throws
    EndOfPacketException when fewer than [length] bytes follow the header,
    and otherwise (with [o] not negative) builds the packet whose tag is the
    positions [o .. o+3], whose payload is the [length] positions after the
    header and whose [size()] is [8 + length]. *)
Theorem C1_decode (b : jsstring) (o : Z) :
  let length := uint32_be b (o + 4) in
  (len b - o < 8 -> DaapPacket.new b (Some o) = inl EndOfPacketException) /\
  (length < 2 ^ 31 -> 8 <= len b - o -> len b - o - 8 < length ->
   DaapPacket.new b (Some o) = inl EndOfPacketException) /\
  (0 <= o -> length < 2 ^ 31 -> 8 <= len b - o -> length <= len b - o - 8 ->
   exists p, DaapPacket.new b (Some o) = inr p /\
             DaapPacket.code p = slice b o 4 /\
             DaapPacket.data p = slice b (o + 8) length /\
             len (DaapPacket.data p) = length /\
             DaapPacket.size p = 8 + length).
Proof.
  cbv zeta. split; [apply new_header|]. split; [apply new_body|].
  intros Ho Hu Hh Hb. eexists. split; [apply new_success; assumption|].
  cbn [DaapPacket.code DaapPacket.data]. unfold DaapPacket.size.
  cbn [DaapPacket.data].
  pose proof (uint32_be_range b (o + 4)) as Hr.
  rewrite len_slice by lia.
  change DaapPacket.HEADER_LENGTH with 8. repeat split; lia.
Qed.

(** Where the claim and the constructor part.  A buffer with 5 bytes
    (no header) and a buffer with a header that announces 24 bytes and has
    none (no body) fail with the same exception.  And the signed shift
    shows: a length field of 0x80000000 is read as a negative size, the
    body check passes, and [substring] with its end before its start
    returns the header itself as the payload. *)
Lemma C1_counterexample :
  (DaapPacket.new [109; 108; 111; 103; 0] (Some 0) = inl EndOfPacketException /\
   DaapPacket.new [109; 108; 111; 103; 0; 0; 0; 24] (Some 0)
   = inl EndOfPacketException) /\
  8 <= len huge_length_chunk - 0 /\
  len huge_length_chunk - 0 - 8 < uint32_be huge_length_chunk (0 + 4) /\
  DaapPacket.new huge_length_chunk (Some 0)
  = inr (DaapPacket.mk (lit "mlog") huge_length_chunk 0) /\
  DaapPacket.size (DaapPacket.mk (lit "mlog") huge_length_chunk 0) = 16.
Proof. vm_compute. repeat split; discriminate. Qed.

Lemma C1_decode_witness :
  (0 <= 8 /\ uint32_be mlog_chunk (8 + 4) < 2 ^ 31 /\
   8 <= len mlog_chunk - 8 /\ uint32_be mlog_chunk (8 + 4) <= len mlog_chunk - 8 - 8) /\
  exists p, DaapPacket.new mlog_chunk (Some 8) = inr p /\
            DaapPacket.code p = lit "mstt" /\
            DaapPacket.data p = [0; 0; 0; 65480] /\
            len (DaapPacket.data p) = 4 /\
            DaapPacket.size p = 8 + 4.
Proof.
  assert (H0 : 0 <= 8) by lia.
  assert (H1 : uint32_be mlog_chunk (8 + 4) < 2 ^ 31) by (vm_compute; reflexivity).
  assert (H2 : 8 <= len mlog_chunk - 8) by (vm_compute; discriminate).
  assert (H3 : uint32_be mlog_chunk (8 + 4) <= len mlog_chunk - 8 - 8)
    by (vm_compute; discriminate).
  split; [repeat split; assumption|].
  exact (proj2 (proj2 (C1_decode mlog_chunk 8)) H0 H1 H2 H3).
Defined.

(** ** convertToInt *)

(** C2, at the payload 80 00 00 00: the packet decodes, its payload holds 4
    bytes whose big-endian unsigned value is 2147483648, and
    [convertToInt] returns -2147483648. *)
Theorem C2_convertToInt_negative :
  exists p, DaapPacket.new mlid_0x80000000 None = inr p /\
            4 <= len (DaapPacket.data p) /\
            uint32_be (DaapPacket.data p) 0 = 2147483648 /\
            DaapPacket.convertToInt p = -2147483648.
Proof.
  eexists. split; [vm_compute; reflexivity|].
  vm_compute. repeat split; discriminate.
Qed.

(** What [convertToInt] returns for every packet: the unsigned value of the
    first four payload bytes wrapped to a signed 32-bit integer, which is
    that value exactly when the first byte is below 0x80. *)
Lemma convertToInt_toInt32 (p : DaapPacket.t) :
  DaapPacket.convertToInt p = toInt32 (uint32_be (DaapPacket.data p) 0).
Proof. exact (readUInt32_toInt32 (DaapPacket.data p) 0). Qed.

Lemma convertToInt_unsigned (p : DaapPacket.t) :
  byteAt (DaapPacket.data p) 0 < 128 ->
  DaapPacket.convertToInt p = uint32_be (DaapPacket.data p) 0.
Proof.
  intros H. unfold DaapPacket.convertToInt.
  apply (readUInt32_unsigned (DaapPacket.data p) 0). unfold uint32_be.
  pose proof (byteAt_range (DaapPacket.data p) 0).
  pose proof (byteAt_range (DaapPacket.data p) (0 + 1)).
  pose proof (byteAt_range (DaapPacket.data p) (0 + 2)).
  pose proof (byteAt_range (DaapPacket.data p) (0 + 3)).
  lia.
Qed.

Lemma convertToInt_negative (p : DaapPacket.t) :
  128 <= byteAt (DaapPacket.data p) 0 -> DaapPacket.convertToInt p < 0.
Proof.
  intros H. rewrite convertToInt_toInt32.
  pose proof (byteAt_range (DaapPacket.data p) 0).
  pose proof (byteAt_range (DaapPacket.data p) (0 + 1)).
  pose proof (byteAt_range (DaapPacket.data p) (0 + 2)).
  pose proof (byteAt_range (DaapPacket.data p) (0 + 3)).
  rewrite toInt32_high; unfold uint32_be; lia.
Qed.

(** ** Iterating over the children *)

Import DaapPacket.

Lemma readNextChunk_throws (p : t) (e : exn) :
  readNextChunk p = inl e -> e = EndOfPacketException.
Proof.
  unfold readNextChunk, new, bindR.
  repeat match goal with |- context [if ?b then _ else _] => destruct b end;
    congruence.
Qed.

Lemma children_loop_inr (p r p' : t) :
  readNextChunk p = inr (r, p') -> children_loop p = r :: children_loop p'.
Proof. intros H. funelim (children_loop p); congruence. Qed.

Lemma children_loop_inl (p : t) (e : exn) :
  readNextChunk p = inl e -> children_loop p = [].
Proof. intros H. funelim (children_loop p); congruence. Qed.

Ltac not_end_of_packet :=
  match goal with
  | E : readNextChunk _ = inl _ |- _ =>
      solve [discriminate (readNextChunk_throws _ _ E)]
  end.

Lemma seekFirst_loop_children (p : t) (c : jsstring) :
  exists p', seekFirst_loop p c
             = inr (find (fun r => codeEquals r c) (children_loop p), p').
Proof.
  funelim (seekFirst_loop p c); try not_end_of_packet.
  - rewrite (children_loop_inl _ _ e). eexists; reflexivity.
  - rewrite (children_loop_inr _ _ _ e). cbn. rewrite Heq. eexists; reflexivity.
  - rewrite (children_loop_inr _ _ _ e). cbn. rewrite Heq. apply H.
Qed.

Lemma seek_loop_children (p : t) (c : jsstring) (acc : list t) :
  exists p', seek_loop p c acc
             = inr (acc ++ filter (fun r => codeEquals r c) (children_loop p), p').
Proof.
  funelim (seek_loop p c acc); try not_end_of_packet.
  - rewrite (children_loop_inl _ _ e), app_nil_r. eexists; reflexivity.
  - rewrite (children_loop_inr _ _ _ e). cbn. rewrite Heq.
    destruct H as [q ->]. rewrite <- app_assoc. eexists; reflexivity.
  - rewrite (children_loop_inr _ _ _ e). cbn. rewrite Heq. apply H.
Qed.

(** [seekFirst] returns the first child with the code, or [null]. *)
Lemma seekFirst_children (p : t) (c : jsstring) :
  exists p', seekFirst p c = inr (find (fun r => codeEquals r c) (children p), p').
Proof. apply seekFirst_loop_children. Qed.

(** [seek] returns the children with the code, in the order read. *)
Lemma seek_children (p : t) (c : jsstring) :
  exists p', seek p c = inr (filter (fun r => codeEquals r c) (children p), p').
Proof. apply (seek_loop_children _ c []). Qed.

(** The cursor a packet comes with does not matter to [seekFirst] and
    [seek]: both reset it. *)
Lemma seekFirst_cursor (p : t) (o : Z) (c : jsstring) :
  seekFirst (mk (code p) (data p) o) c = seekFirst p c.
Proof. reflexivity. Qed.

Lemma seek_cursor (p : t) (o : Z) (c : jsstring) :
  seek (mk (code p) (data p) o) c = seek p c.
Proof. reflexivity. Qed.

(** C3, as the code has it.  [seekFirst] and [seek] never raise an error:
    the EndOfPacketException of a read ends the iteration, whether the
    payload is exhausted or what is left of it is not a chunk.  [seekFirst]
    returns the first child read before that with the code, or [null];
    [seek] returns the children read before that with the code. *)
Theorem C3_decode_failure_ends_iteration (p : t) (refCode : jsstring) :
  (exists p', seekFirst p refCode
              = inr (find (fun r => codeEquals r refCode) (children p), p')) /\
  (exists p', seek p refCode
              = inr (filter (fun r => codeEquals r refCode) (children p), p')).
Proof. split; [apply seekFirst_children | apply seek_children]. Qed.

(** A payload whose second child announces more bytes than are left: the
    read fails with bytes left, [seekFirst] answers [null] and [seek]
    answers the one child before it, neither with an error. *)
Lemma C3_counterexample :
  new mlog_truncated_child None = inr truncated_packet /\
  malformed truncated_packet /\
  seekFirst truncated_packet (lit "musr")
  = inr (None, mk (lit "mlog") (data truncated_packet) 12) /\
  seek truncated_packet (lit "mlid")
  = inr ([mk (lit "mlid") [0; 0; 0; 15] 0],
         mk (lit "mlog") (data truncated_packet) 12).
Proof.
  split; [vm_compute; reflexivity|].
  split; [vm_compute; reflexivity|].
  split; vm_compute; reflexivity.
Qed.

(** ** The field extraction helpers *)

Lemma find_none_iff {A} (f : A -> bool) (l : list A) :
  (forall x, In x l -> f x = false) -> find f l = None.
Proof.
  induction l as [|a l IH]; intros H; [reflexivity|].
  cbn. rewrite (H a (or_introl eq_refl)). apply IH.
  intros x Hx. apply H. right. exact Hx.
Qed.

Lemma find_first {A} (f : A -> bool) (pre post : list A) (x : A) :
  (forall y, In y pre -> f y = false) -> f x = true ->
  find f (pre ++ x :: post) = Some x.
Proof.
  induction pre as [|a pre IH]; intros Hpre Hx; cbn.
  - rewrite Hx. reflexivity.
  - rewrite (Hpre a (or_introl eq_refl)). apply IH; [|exact Hx].
    intros y Hy. apply Hpre. right. exact Hy.
Qed.

Lemma extractInt_find (c : t) (tag : jsstring) :
  extractInt c tag
  = inr (match find (fun r => codeEquals r tag) (children c) with
         | Some chunk => convertToInt chunk
         | None => -1
         end).
Proof.
  unfold extractInt. destruct (seekFirst_children c tag) as [p' ->].
  cbn. destruct (find _ _); reflexivity.
Qed.

Lemma extractString_find (c : t) (tag : jsstring) :
  extractString c tag
  = inr (match find (fun r => codeEquals r tag) (children c) with
         | Some chunk => convertToString chunk
         | None => []
         end).
Proof.
  unfold extractString. destruct (seekFirst_children c tag) as [p' ->].
  cbn. destruct (find _ _); reflexivity.
Qed.

(** C7.  When no child of [c] has the tag, [seekFirst] returns [null]
    without an error, [extractInt] returns -1 and [extractString] the empty
    string; when [first] is the first child with the tag, they return its
    [convertToInt] and its [convertToString]. *)
Theorem C7_extract (c : t) (tag : jsstring) :
  ((forall child, In child (children c) -> codeEquals child tag = false) ->
   (exists c', seekFirst c tag = inr (None, c')) /\
   extractInt c tag = inr (-1) /\
   extractString c tag = inr []) /\
  (forall pre first post,
     children c = pre ++ first :: post ->
     (forall child, In child pre -> codeEquals child tag = false) ->
     codeEquals first tag = true ->
     (exists c', seekFirst c tag = inr (Some first, c')) /\
     extractInt c tag = inr (convertToInt first) /\
     extractString c tag = inr (convertToString first)).
Proof.
  split.
  - intros H. rewrite extractInt_find, extractString_find.
    destruct (seekFirst_children c tag) as [c' ->].
    rewrite (find_none_iff _ _ H). eauto.
  - intros pre first post Hc Hpre Hfirst.
    rewrite extractInt_find, extractString_find.
    destruct (seekFirst_children c tag) as [c' ->].
    rewrite Hc, (find_first _ _ _ _ Hpre Hfirst). eauto.
Qed.

Lemma C7_extract_witness :
  (extractInt mlog_packet (lit "asyr") = inr (-1) /\
   extractString mlog_packet (lit "asyr") = inr []) /\
  extractInt mlog_packet (lit "mlid") = inr 31.
Proof.
  assert (Hc : children mlog_packet = [mstt_200] ++ mlid_31 :: [])
    by (vm_compute; reflexivity).
  split.
  - apply (proj1 (C7_extract mlog_packet (lit "asyr"))).
    intros child Hin. rewrite Hc in Hin.
    destruct Hin as [<-|[<-|[]]]; reflexivity.
  - apply (proj2 (C7_extract mlog_packet (lit "mlid")) [mstt_200] mlid_31 [] Hc).
    + intros child [<-|[]]. reflexivity.
    + reflexivity.
Defined.

(** ** The client *)

Lemma run_idle (rs : list Response) (w : World) :
  pending w = [] -> run rs w = w.
Proof.
  revert w. induction rs as [|r rs IH]; intros w H; [reflexivity|].
  cbn. unfold deliver at 2. rewrite H. apply IH, H.
Qed.

(** C6.  With [sid] or [rid] still [null], [fetchStreams] throws the error
    "Login not completed." and leaves everything as it was: no request is
    sent or left waiting, and no callback is called. *)
Theorem C6_fetchStreams_before_login (w : World) (callback : Callback) :
  sid w = None \/ rid w = None ->
  fetchStreams callback w = (inl (Error "Login not completed."), w).
Proof.
  intros H. unfold fetchStreams, checkLogin, bind, gets, throw.
  destruct H as [-> | ->]; [reflexivity|].
  destruct (sid w); reflexivity.
Qed.

Lemma C6_fetchStreams_before_login_witness :
  let w := DaapClient (lit "10.0.1.6") (Some 3690) true in
  (sid w = None \/ rid w = None) /\
  fetchStreams (UserFunction 0) w = (inl (Error "Login not completed."), w).
Proof.
  cbv zeta. split; [left; reflexivity|].
  apply C6_fetchStreams_before_login. left. reflexivity.
Defined.

Lemma execute_sends (request : RequestHandler) (w : World) :
  overrideMimeType w = true ->
  execute request w
  = (inr tt, set_pending (pending w ++ [request])
               (set_sent (sent w ++ [requestFor w request]) w)).
Proof.
  intros H. unfold execute, bind, gets, modify. rewrite H. reflexivity.
Qed.

Lemma execute_throws (request : RequestHandler) (w w' : World) (e : exn) :
  execute request w = (inl e, w') ->
  e = Error "Your browser does not support binary encoding, aborting ...".
Proof.
  unfold execute, bind, gets, modify, throw.
  destruct (negb (overrideMimeType w)); intros H; inversion H; reflexivity.
Qed.

Lemma deliver_first (r : Response) (request : RequestHandler) (w : World) :
  pending w = [request] ->
  deliver r w
  = match onreadystatechange request (status r) (responseText r) (set_pending [] w) with
    | (inl e, w') => set_uncaught (uncaught w' ++ [e]) w'
    | (inr _, w') => w'
    end.
Proof. intros H. unfold deliver. rewrite H. reflexivity. Qed.

(** C5.  When the answer to the login request has a status other than 200,
    the caller's callback is called once, with that status; the login
    request is the only request sent, whatever arrives later, and none is
    left waiting; [sid] and [rid] are as before. *)
Theorem C5_login_refused (w : World) (callback : Callback) (code : Z)
    (text : jsstring) (later : list Response) :
  overrideMimeType w = true -> pending w = [] -> code <> 200 ->
  let handler := LoginRequestHandler (LoginListener callback) in
  let w' := run (mkResponse code text :: later) (snd (login callback w)) in
  fst (login callback w) = inr tt /\
  calls w' = calls w ++ [mkCall callback [VNumber code]] /\
  sent w' = sent w ++ [requestFor w handler] /\
  pending w' = [] /\
  uncaught w' = uncaught w /\
  sid w' = sid w /\ rid w' = rid w.
Proof.
  intros Hb Hp Hc. cbv zeta. unfold login. rewrite (execute_sends _ _ Hb).
  cbn [fst snd]. split; [reflexivity|].
  change (run (?r :: later) ?x) with (run later (deliver r x)).
  rewrite Hp. cbn [app].
  erewrite deliver_first by reflexivity.
  unfold onreadystatechange. cbn [status responseText].
  replace (code =? 200) with false by (symmetry; apply Z.eqb_neq; exact Hc).
  cbn. rewrite run_idle by reflexivity. cbn. repeat split.
Qed.

Lemma C5_login_refused_witness :
  let w := DaapClient (lit "10.0.1.6") (Some 3690) true in
  let w' := run [mkResponse 401 []; mkResponse 200 mlog_chunk]
              (snd (login (UserFunction 0) w)) in
  (overrideMimeType w = true /\ pending w = [] /\ 401 <> 200) /\
  calls w' = [mkCall (UserFunction 0) [VNumber 401]] /\
  map url (sent w') = [lit "http://10.0.1.6:3690/login"] /\
  pending w' = [].
Proof.
  cbv zeta.
  assert (Hc : 401 <> 200) by discriminate.
  split; [repeat split; exact Hc|].
  destruct (C5_login_refused (DaapClient (lit "10.0.1.6") (Some 3690) true)
              (UserFunction 0) 401 [] [mkResponse 200 mlog_chunk]
              eq_refl eq_refl Hc) as (_ & H1 & H2 & H3 & _).
  rewrite H1, H2, H3. repeat split.
Defined.

Lemma seekFirst_convertToInt_find (p : t) (tag : jsstring) :
  seekFirst_convertToInt p tag
  = match find (fun r => codeEquals r tag) (children p) with
    | Some chunk => inr (convertToInt chunk)
    | None => inl TypeError
    end.
Proof.
  unfold seekFirst_convertToInt. destruct (seekFirst_children p tag) as [p' ->].
  cbn. destruct (find _ _); reflexivity.
Qed.

(** What the answer to a login request does, for a body that decodes. *)
Lemma login_answer (l : Listener) (text : jsstring) (p : t) (w : World) :
  new text None = inr p ->
  onreadystatechange (LoginRequestHandler l) 200 text w
  = match find (fun r => codeEquals r (lit "mlid")) (children p) with
    | Some chunk => sidUpdated l (convertToInt chunk) w
    | None => (inl TypeError, w)
    end.
Proof.
  intros Hp. unfold onreadystatechange, try_catch, bind, lift. cbn [negb Z.eqb Pos.eqb].
  rewrite Hp. cbn [handleResponse]. unfold bind, lift.
  rewrite seekFirst_convertToInt_find.
  destruct (find _ _) as [chunk|]; [|reflexivity].
  destruct (sidUpdated l (convertToInt chunk) w) as [[e|[]] w'] eqn:Hs; [|reflexivity].
  unfold sidUpdated, bind, modify in Hs.
  apply execute_throws in Hs. rewrite Hs. reflexivity.
Qed.

(** What the answer to an update request does, for a body that decodes. *)
Lemma update_answer (aSid : Z) (callback : Callback) (text : jsstring) (p : t)
    (w : World) :
  new text None = inr p ->
  onreadystatechange (UpdateRequestHandler aSid (LoginListener callback)) 200 text w
  = match find (fun r => codeEquals r (lit "musr")) (children p) with
    | Some chunk =>
        (inr tt, set_calls (calls w ++ [mkCall callback [VNumber 200]])
                   (set_rid (Some (convertToInt chunk)) w))
    | None => (inl TypeError, w)
    end.
Proof.
  intros Hp. unfold onreadystatechange, try_catch, bind, lift. cbn [negb Z.eqb Pos.eqb].
  rewrite Hp. cbn [handleResponse]. unfold bind, lift.
  rewrite seekFirst_convertToInt_find.
  destruct (find _ _) as [chunk|]; reflexivity.
Qed.

Ltac after_login Hb Hp :=
  cbv zeta; unfold login; rewrite (execute_sends _ _ Hb); cbn [fst snd];
  rewrite Hp; cbn [app].

(** The next answer arrives for the one request that waits. *)
Ltac next_answer :=
  match goal with
  | |- context [run (?r :: ?rs) ?x] =>
      change (run (r :: rs) x) with (run rs (deliver r x));
      erewrite deliver_first by reflexivity; cbn [status responseText]
  end.

(** C4.  When the answer to the login request is a 200 whose first [mlid]
    child has the value [mlid] and the answer to the update request is a
    200 whose first [musr] child has the value [musr] (31 and 5 in the
    scenario of the specification), the caller's callback is called once,
    with 200, and the client holds [sid = mlid] and [rid = musr]. *)
Theorem C4_login_completes (w : World) (callback : Callback)
    (text1 text2 : jsstring) (p1 p2 c1 c2 : t) (mlid musr : Z) :
  overrideMimeType w = true -> pending w = [] ->
  new text1 None = inr p1 ->
  find (fun r => codeEquals r (lit "mlid")) (children p1) = Some c1 ->
  convertToInt c1 = mlid ->
  new text2 None = inr p2 ->
  find (fun r => codeEquals r (lit "musr")) (children p2) = Some c2 ->
  convertToInt c2 = musr ->
  let w' := run [mkResponse 200 text1; mkResponse 200 text2]
              (snd (login callback w)) in
  fst (login callback w) = inr tt /\
  calls w' = calls w ++ [mkCall callback [VNumber 200]] /\
  sid w' = Some mlid /\ rid w' = Some musr /\
  pending w' = [] /\ uncaught w' = uncaught w.
Proof.
  intros Hb Hp H1 Hc1 Hv1 H2 Hc2 Hv2.
  after_login Hb Hp. split; [reflexivity|].
  next_answer. rewrite (login_answer _ _ _ _ H1), Hc1, Hv1.
  unfold sidUpdated, bind, modify. rewrite execute_sends by exact Hb.
  cbn [pending set_pending set_sent set_sid app].
  next_answer. rewrite (update_answer _ _ _ _ _ H2), Hc2, Hv2.
  cbn. repeat split.
Qed.

Lemma C4_login_completes_witness :
  let w := DaapClient (lit "10.0.1.6") (Some 3690) true in
  let w' := run [mkResponse 200 mlog_chunk; mkResponse 200 mupd_chunk]
              (snd (login (UserFunction 0) w)) in
  calls w' = [mkCall (UserFunction 0) [VNumber 200]] /\
  sid w' = Some 31 /\ rid w' = Some 5.
Proof.
  cbv zeta.
  assert (H1 : new mlog_chunk None = inr mlog_packet) by (vm_compute; reflexivity).
  assert (Hc1 : find (fun r => codeEquals r (lit "mlid")) (children mlog_packet)
                = Some mlid_31) by (vm_compute; reflexivity).
  assert (H2 : new mupd_chunk None = inr mupd_packet) by (vm_compute; reflexivity).
  assert (Hc2 : find (fun r => codeEquals r (lit "musr")) (children mupd_packet)
                = Some musr_5) by (vm_compute; reflexivity).
  destruct (C4_login_completes (DaapClient (lit "10.0.1.6") (Some 3690) true)
              (UserFunction 0) mlog_chunk mupd_chunk mlog_packet mupd_packet
              mlid_31 musr_5 31 5 eq_refl eq_refl H1 Hc1 eq_refl H2 Hc2 eq_refl)
    as (_ & Hcalls & Hsid & Hrid & _).
  rewrite Hcalls, Hsid, Hrid. repeat split.
Defined.

(** C9.  A 200 answer to the login request that decodes and has no [mlid]
    child ends in an uncaught TypeError: no callback is called, [sid] is
    not set, no update request is sent.  So does a 200 answer to the
    update request that decodes and has no [musr] child: no callback is
    called and [rid] is not set.  Nothing is left waiting, so no callback
    follows either, whatever arrives later. *)
Theorem C9_missing_id (w : World) (callback : Callback)
    (text1 text2 : jsstring) (p1 p2 c1 : t) (later : list Response) :
  overrideMimeType w = true -> pending w = [] ->
  new text1 None = inr p1 ->
  new text2 None = inr p2 ->
  (forall child, In child (children p2) -> codeEquals child (lit "musr") = false) ->
  let handler := LoginRequestHandler (LoginListener callback) in
  ((forall child, In child (children p1) -> codeEquals child (lit "mlid") = false) ->
   let w' := run (mkResponse 200 text1 :: later) (snd (login callback w)) in
   calls w' = calls w /\
   uncaught w' = uncaught w ++ [TypeError] /\
   sid w' = sid w /\ rid w' = rid w /\
   sent w' = sent w ++ [requestFor w handler] /\
   pending w' = []) /\
  (find (fun r => codeEquals r (lit "mlid")) (children p1) = Some c1 ->
   let w' := run (mkResponse 200 text1 :: mkResponse 200 text2 :: later)
               (snd (login callback w)) in
   calls w' = calls w /\
   uncaught w' = uncaught w ++ [TypeError] /\
   sid w' = Some (convertToInt c1) /\ rid w' = rid w /\
   pending w' = []).
Proof.
  intros Hb Hp H1 H2 Hno2. cbv zeta. split.
  - intros Hno1. after_login Hb Hp.
    next_answer. rewrite (login_answer _ _ _ _ H1), (find_none_iff _ _ Hno1).
    rewrite run_idle by reflexivity. cbn. repeat split.
  - intros Hc1. after_login Hb Hp.
    next_answer. rewrite (login_answer _ _ _ _ H1), Hc1.
    unfold sidUpdated, bind, modify. rewrite execute_sends by exact Hb.
    cbn [pending set_pending set_sent set_sid app].
    next_answer. rewrite (update_answer _ _ _ _ _ H2), (find_none_iff _ _ Hno2).
    rewrite run_idle by reflexivity. cbn. repeat split.
Qed.

Lemma C9_missing_id_witness :
  let w := DaapClient (lit "10.0.1.6") (Some 3690) true in
  let w' := run [mkResponse 200 mstt_only_chunk] (snd (login (UserFunction 0) w)) in
  calls w' = [] /\ uncaught w' = [TypeError] /\ sid w' = None /\
  map url (sent w') = [lit "http://10.0.1.6:3690/login"].
Proof.
  cbv zeta.
  assert (H1 : new mstt_only_chunk None = inr mstt_only_packet)
    by (vm_compute; reflexivity).
  assert (Hc : children mstt_only_packet = [mk (lit "mstt") [0; 0; 0; 200] 0])
    by (vm_compute; reflexivity).
  assert (Hno : forall tag, streq (lit "mstt") tag = false ->
                 forall child, In child (children mstt_only_packet) ->
                               codeEquals child tag = false).
  { intros tag Htag child Hin. rewrite Hc in Hin.
    destruct Hin as [<-|[]]. exact Htag. }
  destruct (C9_missing_id (DaapClient (lit "10.0.1.6") (Some 3690) true)
              (UserFunction 0) mstt_only_chunk mstt_only_chunk
              mstt_only_packet mstt_only_packet mlid_31 []
              eq_refl eq_refl H1 H1 (Hno (lit "musr") eq_refl)) as [H _].
  destruct (H (Hno (lit "mlid") eq_refl))
    as (Hcalls & Hunc & Hsid & _ & Hsent & _).
  rewrite Hcalls, Hunc, Hsid, Hsent. repeat split.
Defined.

(** ** The catalog *)

Lemma toInt32_range (z : Z) : - 2 ^ 31 <= toInt32 z < 2 ^ 31.
Proof.
  unfold toInt32. pose proof (Z.mod_pos_bound (z + 2 ^ 31) (2 ^ 32)). lia.
Qed.

Lemma sar_16 (v : Z) : - 2 ^ 31 <= v < 2 ^ 31 -> sar v 16 = Z.shiftr v 16.
Proof. intros H. unfold sar. rewrite (toInt32_small v H). reflexivity. Qed.

Lemma fieldInt_range (c : t) (tag : string) :
  - 2 ^ 31 <= fieldInt c tag < 2 ^ 31.
Proof.
  unfold fieldInt. destruct (find _ _) as [chunk|]; [|lia].
  rewrite convertToInt_toInt32. apply toInt32_range.
Qed.

Lemma extractInt_field (c : t) (tag : string) :
  extractInt c (lit tag) = inr (fieldInt c tag).
Proof. apply extractInt_find. Qed.

Lemma extractString_field (c : t) (tag : string) :
  extractString c (lit tag) = inr (fieldString c tag).
Proof. apply extractString_find. Qed.

(** [createDaapStream] builds the media item of the chunk. *)
Lemma createDaapStream_mediaItem (sid : Z) (server : jsstring) (mlit : t) :
  createDaapStream (Some sid) server mlit = inr (mediaItem sid server mlit).
Proof.
  unfold createDaapStream.
  rewrite !extractInt_field, !extractString_field. cbn [bindR idToString].
  rewrite !sar_16 by apply fieldInt_range. reflexivity.
Qed.

Lemma createDaapStreams_map (sid : Z) (server : jsstring) (mlits : list t)
    (audioStreams : list Stream.t) :
  createDaapStreams (Some sid) server mlits audioStreams
  = inr (audioStreams ++ map (mediaItem sid server) mlits).
Proof.
  revert audioStreams. induction mlits as [|mlit rest IH]; intros acc; cbn.
  - rewrite app_nil_r. reflexivity.
  - rewrite createDaapStream_mediaItem. cbn [bindR].
    rewrite IH, <- app_assoc. reflexivity.
Qed.

(** What the answer to a catalog request does, for a body that decodes. *)
Lemma database_answer (aSid aRid : Z) (aServer : jsstring) (callback : Callback)
    (text : jsstring) (p : t) (w : World) :
  new text None = inr p ->
  onreadystatechange
    (DatabaseRequestHandler (Some aSid) (Some aRid) aServer callback) 200 text w
  = match find (fun r => codeEquals r (lit "mlcl")) (children p) with
    | Some mlcl =>
        (inr tt,
         set_calls
           (calls w ++
            [mkCall callback
               [VNumber 200;
                VStreams (map (mediaItem aSid aServer)
                            (filter (fun r => codeEquals r (lit "mlit"))
                               (children mlcl)))]]) w)
    | None => (inl TypeError, w)
    end.
Proof.
  intros Hp. unfold onreadystatechange, try_catch, bind, lift. cbn [negb Z.eqb Pos.eqb].
  rewrite Hp. cbn [handleResponse]. unfold bind, lift.
  destruct (seekFirst_children p (lit "mlcl")) as [p' ->].
  destruct (find _ _) as [mlcl|]; [|reflexivity].
  destruct (seek_children mlcl (lit "mlit")) as [q ->].
  rewrite createDaapStreams_map. reflexivity.
Qed.

(** C8.  For a 200 answer to the catalog request that decodes and has an
    [mlcl] child, the callback is called with 200 and the list that holds,
    in the order read, the media item of every [mlit] child of the first
    [mlcl] child: id [sid-itemId], uri
    [server/databases/1/items/itemId.format?session-id=sid], the strings
    and integers extracted, bitrate and year shifted right by 16 bits. *)
Theorem C8_catalog (w : World) (callback : Callback) (text : jsstring)
    (p mlcl : t) (s r : Z) :
  overrideMimeType w = true -> pending w = [] ->
  sid w = Some s -> rid w = Some r ->
  new text None = inr p ->
  find (fun c => codeEquals c (lit "mlcl")) (children p) = Some mlcl ->
  let mlits := filter (fun c => codeEquals c (lit "mlit")) (children mlcl) in
  let w' := run [mkResponse 200 text] (snd (fetchStreams callback w)) in
  fst (fetchStreams callback w) = inr tt /\
  calls w' = calls w ++ [mkCall callback
                           [VNumber 200;
                            VStreams (map (mediaItem s (server w)) mlits)]] /\
  uncaught w' = uncaught w.
Proof.
  intros Hb Hp Hs Hr Hnew Hmlcl. cbv zeta.
  unfold fetchStreams, checkLogin, bind, gets. rewrite Hs, Hr. cbn [isNull orb ret].
  rewrite (execute_sends _ _ Hb). cbn [fst snd]. split; [reflexivity|].
  rewrite Hp, ?Hs, ?Hr. cbn [app].
  next_answer. rewrite (database_answer _ _ _ _ _ _ _ Hnew), Hmlcl.
  cbn. split; reflexivity.
Qed.

Lemma C8_catalog_witness :
  let w' := run [mkResponse 200 adbs_chunk]
              (snd (fetchStreams (UserFunction 1) logged_in)) in
  exists item,
    calls w' = calls logged_in
               ++ [mkCall (UserFunction 1) [VNumber 200; VStreams [item]]] /\
    Stream.id item = lit "31-100" /\
    Stream.uri item
    = lit "http://10.0.1.6:3690/databases/1/items/100.mp3?session-id=31" /\
    Stream.title item = lit "Song".
Proof.
  cbv zeta.
  assert (Hb : overrideMimeType logged_in = true) by (vm_compute; reflexivity).
  assert (Hp : pending logged_in = []) by (vm_compute; reflexivity).
  assert (Hs : sid logged_in = Some 31) by (vm_compute; reflexivity).
  assert (Hr : rid logged_in = Some 5) by (vm_compute; reflexivity).
  assert (Hsrv : server logged_in = lit "http://10.0.1.6:3690")
    by (vm_compute; reflexivity).
  assert (Hnew : new adbs_chunk None = inr adbs_packet) by (vm_compute; reflexivity).
  assert (Hmlcl : find (fun c => codeEquals c (lit "mlcl")) (children adbs_packet)
                  = Some mlcl_packet) by (vm_compute; reflexivity).
  assert (Hmlits : filter (fun c => codeEquals c (lit "mlit")) (children mlcl_packet)
                   = [mlit_packet]) by (vm_compute; reflexivity).
  destruct (C8_catalog logged_in (UserFunction 1) adbs_chunk adbs_packet
              mlcl_packet 31 5 Hb Hp Hs Hr Hnew Hmlcl) as (_ & Hcalls & _).
  rewrite Hmlits, Hsrv in Hcalls. cbn [map] in Hcalls.
  exists (mediaItem 31 (lit "http://10.0.1.6:3690") mlit_packet).
  split; [exact Hcalls|].
  repeat split; vm_compute; reflexivity.
Defined.

(** ** The server of a client *)

Section Server.

Variable base : jsstring.

Lemma keeps_ret {A} (a : A) : keeps base (ret a).
Proof. intros w H. exact H. Qed.

Lemma keeps_throw {A} (e : exn) : keeps base (@throw A e).
Proof. intros w H. exact H. Qed.

Lemma keeps_gets {A} (f : World -> A) : keeps base (gets f).
Proof. intros w H. exact H. Qed.

Lemma keeps_bind {A B} (m : M A) (k : A -> M B) :
  keeps base m -> (forall a, keeps base (k a)) -> keeps base (bind m k).
Proof.
  intros Hm Hk w H. unfold bind. specialize (Hm w H).
  destruct (m w) as [[e|a] w']; cbn [snd] in *; [exact Hm|].
  apply Hk, Hm.
Qed.

Lemma keeps_bind_gets {A B} (f : World -> A) (k : A -> M B) :
  (forall w, client_of base w -> client_of base (snd (k (f w) w))) ->
  keeps base (bind (gets f) k).
Proof. intros Hk w H. unfold bind, gets. apply Hk, H. Qed.

Lemma keeps_bind_lift {A B} (r : result A) (k : A -> M B) :
  (forall a, r = inr a -> keeps base (k a)) -> keeps base (bind (lift r) k).
Proof.
  intros Hk w H. unfold bind, lift.
  destruct r as [e|a]; cbn [snd]; [exact H|]. apply (Hk a eq_refl), H.
Qed.

Lemma keeps_try_catch {A} (m : M A) (h : exn -> M A) :
  keeps base m -> (forall e, keeps base (h e)) -> keeps base (try_catch m h).
Proof.
  intros Hm Hh w H. unfold try_catch. specialize (Hm w H).
  destruct (m w) as [[e|a] w']; cbn [snd] in *; [|exact Hm].
  apply Hh, Hm.
Qed.

Lemma keeps_set_sid (v : option Z) : keeps base (modify (set_sid v)).
Proof. intros w H. exact H. Qed.

Lemma keeps_set_rid (v : option Z) : keeps base (modify (set_rid v)).
Proof. intros w H. exact H. Qed.

Lemma keeps_call (f : Callback) (a : list value) :
  streams_from base (mkCall f a) -> keeps base (call f a).
Proof.
  intros Ha w (Hs & Hp & Hc). repeat split; [exact Hs|exact Hp|].
  cbn. apply Forall_app. split; [exact Hc|]. constructor; [exact Ha|constructor].
Qed.

Lemma streams_from_numbers (f : Callback) (a : list value) :
  (forall streams, ~ In (VStreams streams) a) -> streams_from base (mkCall f a).
Proof. intros H streams st Hin. destruct (H streams Hin). Qed.

Lemma keeps_call_status (f : Callback) (code : Z) :
  keeps base (call f [VNumber code]).
Proof.
  apply keeps_call, streams_from_numbers.
  intros streams [H|[]]. discriminate H.
Qed.

Lemma keeps_call_undefined (f : Callback) (code : Z) :
  keeps base (call f [VNumber code; VUndefined]).
Proof.
  apply keeps_call, streams_from_numbers.
  intros streams [H|[H|[]]]; discriminate H.
Qed.

Lemma keeps_execute (request : RequestHandler) :
  handler_server base request -> keeps base (execute request).
Proof.
  intros Hr w (Hs & Hp & Hc). unfold execute, bind, gets, throw, modify.
  destruct (negb (overrideMimeType w)); cbn [snd]; [repeat split; assumption|].
  repeat split; [exact Hs| |exact Hc].
  cbn. apply Forall_app. split; [exact Hp|]. constructor; [exact Hr|constructor].
Qed.

Lemma keeps_fail (request : RequestHandler) (code : Z) : keeps base (fail request code).
Proof.
  destruct request as [[f]|aSid [f]|aSid aRid aServer f]; cbn [fail Listener_fail].
  - apply keeps_call_status.
  - apply keeps_call_status.
  - apply keeps_call_undefined.
Qed.

Lemma createDaapStream_uri (sid : option Z) (server : jsstring) (mlit : t)
    (st : Stream.t) :
  createDaapStream sid server mlit = inr st -> startsWith (Stream.uri st) server.
Proof.
  unfold createDaapStream.
  rewrite !extractInt_field, !extractString_field. cbn [bindR].
  intros H. injection H as <-. cbn [Stream.uri]. eexists. reflexivity.
Qed.

Lemma createDaapStreams_uri (sid : option Z) (server : jsstring) (mlits : list t)
    (audioStreams streams : list Stream.t) :
  createDaapStreams sid server mlits audioStreams = inr streams ->
  Forall (fun st => startsWith (Stream.uri st) server) audioStreams ->
  Forall (fun st => startsWith (Stream.uri st) server) streams.
Proof.
  revert audioStreams. induction mlits as [|mlit rest IH]; intros acc; cbn.
  - intros H Hacc. injection H as <-. exact Hacc.
  - destruct (createDaapStream sid server mlit) as [e|st] eqn:Hst;
      cbn [bindR]; [discriminate|].
    intros H Hacc. apply (IH _ H). apply Forall_app. split; [exact Hacc|].
    constructor; [|constructor]. apply (createDaapStream_uri _ _ _ _ Hst).
Qed.

Lemma keeps_handleResponse (request : RequestHandler) (packet : t) :
  handler_server base request -> keeps base (handleResponse request packet).
Proof.
  destruct request as [l|aSid [f]|aSid aRid aServer f]; cbn [handleResponse];
    intros Hr.
  - apply keeps_bind_lift. intros sid _. unfold sidUpdated.
    apply keeps_bind; [apply keeps_set_sid|]. intros _.
    apply keeps_execute. exact I.
  - apply keeps_bind_lift. intros rid _. unfold ridUpdated.
    apply keeps_bind; [apply keeps_set_rid|]. intros _.
    apply keeps_call_status.
  - cbn in Hr. subst aServer.
    apply keeps_bind_lift. intros [[mlcl|] p'] _; [|apply keeps_throw].
    apply keeps_bind_lift. intros [mlits q] _.
    apply keeps_bind_lift. intros streams Hstreams.
    apply keeps_call. intros l st [H|[H|[]]] Hst; [discriminate H|].
    injection H as <-.
    pose proof (createDaapStreams_uri _ _ _ _ _ Hstreams (Forall_nil _)) as Hall.
    rewrite Forall_forall in Hall. apply Hall, Hst.
Qed.

Lemma keeps_onreadystatechange (request : RequestHandler) (code : Z)
    (text : jsstring) :
  handler_server base request -> keeps base (onreadystatechange request code text).
Proof.
  intros Hr. unfold onreadystatechange.
  destruct (negb (code =? 200)); [apply keeps_fail|].
  apply keeps_try_catch.
  - apply keeps_bind_lift. intros packet _. apply keeps_handleResponse, Hr.
  - intros [| |msg]; [apply keeps_fail|apply keeps_throw|apply keeps_throw].
Qed.

Lemma client_of_deliver (r : Response) (w : World) :
  client_of base w -> client_of base (deliver r w).
Proof.
  intros (Hs & Hp & Hc). unfold deliver.
  destruct (pending w) as [|request rest] eqn:Hpend.
  - repeat split; try assumption. rewrite Hpend. constructor.
  - apply Forall_cons_iff in Hp as [Hreq Hrest].
    assert (H : client_of base (set_pending rest w)) by (repeat split; assumption).
    apply (keeps_onreadystatechange request (status r) (responseText r) Hreq) in H.
    destruct (onreadystatechange _ _ _ _) as [[e|[]] w']; cbn [snd] in H;
      [|exact H].
    exact H.
Qed.

Lemma client_of_step (w : World) (a : action) :
  client_of base w -> client_of base (step w a).
Proof.
  intros H. destruct a as [f|f|r]; cbn [step].
  - apply (keeps_execute (LoginRequestHandler (LoginListener f)) I w H).
  - unfold fetchStreams. revert w H.
    apply keeps_bind.
    + unfold checkLogin. apply keeps_bind_gets. intros w H.
      destruct (isNull (sid w) || isNull (rid w)); exact H.
    + intros _. apply keeps_bind_gets. intros w H.
      apply keeps_execute; [|exact H]. cbn. apply H.
  - apply client_of_deliver, H.
Qed.

Lemma client_of_steps (actions : list action) (w : World) :
  client_of base w -> client_of base (steps w actions).
Proof.
  revert w. induction actions as [|a rest IH]; intros w H; [exact H|].
  apply IH, client_of_step, H.
Qed.

End Server.

(** A string that begins with [http://ip:/3689] does not begin with
    [http://ip:3689]. *)
Lemma not_well_formed_base (ip s : jsstring) :
  startsWith s (lit "http://" ++ ip ++ lit ":/3689") ->
  ~ startsWith s (lit "http://" ++ ip ++ lit ":3689").
Proof.
  intros [r1 H1] [r2 H2]. rewrite H1 in H2.
  rewrite <- !app_assoc in H2. apply app_inv_head in H2.
  apply app_inv_head in H2. discriminate H2.
Qed.

(** C10.  A client built without a port has the server
    [http://ip:/3689]; after any sequence of logins, catalog requests and
    answers, every stream handed to a callback has a uri that begins with
    this string, and so not with [http://ip:3689]. *)
Theorem C10_default_port (ip : jsstring) (browser : bool) :
  let w0 := DaapClient ip None browser in
  server w0 = lit "http://" ++ ip ++ lit ":/3689" /\
  forall actions f a streams st,
    In (mkCall f a) (calls (steps w0 actions)) ->
    In (VStreams streams) a -> In st streams ->
    startsWith (Stream.uri st) (lit "http://" ++ ip ++ lit ":/3689") /\
    ~ startsWith (Stream.uri st) (lit "http://" ++ ip ++ lit ":3689").
Proof.
  cbv zeta. split; [reflexivity|].
  intros actions f a streams st Hcall Ha Hst.
  assert (H0 : client_of (lit "http://" ++ ip ++ lit ":/3689")
                 (DaapClient ip None browser))
    by (repeat split; constructor).
  apply (client_of_steps _ actions) in H0. destruct H0 as (_ & _ & Hcalls).
  rewrite Forall_forall in Hcalls.
  assert (Hs : startsWith (Stream.uri st) (lit "http://" ++ ip ++ lit ":/3689"))
    by (apply (Hcalls _ Hcall streams st Ha Hst)).
  split; [exact Hs|]. apply not_well_formed_base, Hs.
Qed.

Lemma C10_default_port_witness :
  let w0 := DaapClient (lit "10.0.1.6") None true in
  let actions :=
    [Login (UserFunction 0);
     Answer (mkResponse 200 mlog_chunk); Answer (mkResponse 200 mupd_chunk);
     FetchStreams (UserFunction 1); Answer (mkResponse 200 adbs_chunk)] in
  let st := mediaItem 31 (lit "http://10.0.1.6:/3689") mlit_packet in
  calls (steps w0 actions)
  = [mkCall (UserFunction 0) [VNumber 200];
     mkCall (UserFunction 1) [VNumber 200; VStreams [st]]] /\
  Stream.uri st
  = lit "http://10.0.1.6:/3689/databases/1/items/100.mp3?session-id=31" /\
  startsWith (Stream.uri st) (lit "http://10.0.1.6:/3689") /\
  ~ startsWith (Stream.uri st) (lit "http://10.0.1.6:3689").
Proof.
  cbv zeta.
  set (w0 := DaapClient (lit "10.0.1.6") None true).
  set (actions := [Login (UserFunction 0);
                   Answer (mkResponse 200 mlog_chunk);
                   Answer (mkResponse 200 mupd_chunk);
                   FetchStreams (UserFunction 1);
                   Answer (mkResponse 200 adbs_chunk)]).
  set (st := mediaItem 31 (lit "http://10.0.1.6:/3689") mlit_packet).
  assert (Hcalls : calls (steps w0 actions)
                   = [mkCall (UserFunction 0) [VNumber 200];
                      mkCall (UserFunction 1) [VNumber 200; VStreams [st]]])
    by (vm_compute; reflexivity).
  assert (Hin : In (mkCall (UserFunction 1) [VNumber 200; VStreams [st]])
                   (calls (steps w0 actions)))
    by (rewrite Hcalls; right; left; reflexivity).
  split; [exact Hcalls|]. split; [vm_compute; reflexivity|].
  exact (proj2 (C10_default_port (lit "10.0.1.6") true) actions
           (UserFunction 1) [VNumber 200; VStreams [st]] [st] st Hin
           (or_intror (or_introl eq_refl)) (or_introl eq_refl)).
Defined.

(** ** The tests of DaapPacketTest.html *)

Example extract_mlog :
  extractInt mlog_packet (lit "mlid") = inr 31 /\
  extractInt mlog_packet (lit "mstt") = inr 200.
Proof. split; vm_compute; reflexivity. Qed.

Example seek_unknown_code :
  seekFirst mlog_packet (lit "other") = inr (None, mk (lit "mlog") (data mlog_packet) 24).
Proof. vm_compute. reflexivity. Qed.

Example extract_2_tags_mlid :
  bindR (new mlog_two_mlid None) (fun packet =>
  bindR (seek packet (lit "mlid")) (fun '(mlids, _) =>
    inr (map convertToInt mlids))) = inr [15; 4].
Proof. vm_compute. reflexivity. Qed.

Example construction_fails_no_header :
  new [109; 108; 111; 103; 0] None = inl EndOfPacketException.
Proof. reflexivity. Qed.

Example construction_fails_no_data :
  new [109; 108; 111; 103; 0; 0; 0; 24] None = inl EndOfPacketException.
Proof. reflexivity. Qed.

Example fetchStreams_uri :
  getUri (DatabaseRequestHandler (Some 31) (Some 5) [] (UserFunction 0))
  = lit "databases/1/items?type=music&session-id=31&revision-id=5&meta=dmap.itemid,daap.songformat,dmap.itemname,daap.songalbum,daap.songartist,daap.songgenre,daap.songtracknumber,daap.songtime,daap.songsize,daap.songyear,daap.songbitrate".
Proof. vm_compute. reflexivity. Qed.

(** * Further properties of the code *)

(** ** Decoding what was encoded *)

Lemma len_app (a b : jsstring) : len (a ++ b) = len a + len b.
Proof. unfold len. rewrite length_app. lia. Qed.

Lemma charCodeAt_app_r (pre s : jsstring) (i : Z) :
  0 <= i -> charCodeAt (pre ++ s) (len pre + i) = charCodeAt s i.
Proof.
  intros Hi. unfold charCodeAt. rewrite len_app.
  pose proof (len_nonneg pre) as Hp.
  replace (0 <=? len pre + i) with true by (symmetry; apply Z.leb_le; lia).
  replace (0 <=? i) with true by (symmetry; apply Z.leb_le; lia).
  replace (len pre + i <? len pre + len s) with (i <? len s)
    by (destruct (Z.ltb_spec i (len s)), (Z.ltb_spec (len pre + i) (len pre + len s));
        try reflexivity; lia).
  cbn [andb]. destruct (i <? len s); [|reflexivity].
  rewrite nth_error_app2 by (unfold len in *; lia).
  f_equal. unfold len. lia.
Qed.

Lemma byteAt_app_r (pre s : jsstring) (i : Z) :
  0 <= i -> byteAt (pre ++ s) (len pre + i) = byteAt s i.
Proof. intros Hi. unfold byteAt. rewrite charCodeAt_app_r by exact Hi. reflexivity. Qed.

Lemma uint32_be_app_r (pre s : jsstring) (i : Z) :
  0 <= i -> uint32_be (pre ++ s) (len pre + i) = uint32_be s i.
Proof.
  intros Hi. unfold uint32_be.
  rewrite <- !Z.add_assoc, !byteAt_app_r by lia. reflexivity.
Qed.

Lemma byteAt_nth (s : jsstring) (k : nat) (x : Z) :
  nth_error s k = Some x -> byteAt s (Z.of_nat k) = x mod 256.
Proof.
  intros H. unfold byteAt, charCodeAt, len.
  assert (Hk : (k < List.length s)%nat) by (apply nth_error_Some; congruence).
  replace (0 <=? Z.of_nat k) with true by (symmetry; apply Z.leb_le; lia).
  replace (Z.of_nat k <? Z.of_nat (List.length s)) with true
    by (symmetry; apply Z.ltb_lt; lia).
  cbn [andb]. rewrite Nat2Z.id, H. reflexivity.
Qed.

Lemma uint32_be_bytes (n : Z) (rest : jsstring) :
  0 <= n < 2 ^ 32 -> uint32_be (uint32_bytes n ++ rest) 0 = n.
Proof.
  intros Hn. unfold uint32_be.
  pose proof (byteAt_nth (uint32_bytes n ++ rest) 0 (n / 2 ^ 24 mod 256) eq_refl) as H0.
  pose proof (byteAt_nth (uint32_bytes n ++ rest) 1 (n / 2 ^ 16 mod 256) eq_refl) as H1.
  pose proof (byteAt_nth (uint32_bytes n ++ rest) 2 (n / 2 ^ 8 mod 256) eq_refl) as H2.
  pose proof (byteAt_nth (uint32_bytes n ++ rest) 3 (n mod 256) eq_refl) as H3.
  change (Z.of_nat 0) with 0 in H0. change (Z.of_nat 1) with (0 + 1) in H1.
  change (Z.of_nat 2) with (0 + 2) in H2. change (Z.of_nat 3) with (0 + 3) in H3.
  rewrite H0, H1, H2, H3.
  rewrite !Z.mod_mod by lia.
  change (2 ^ 24) with 16777216 in *. change (2 ^ 16) with 65536 in *.
  change (2 ^ 8) with 256 in *. change (2 ^ 32) with 4294967296 in *.
  Z.to_euclidean_division_equations. lia.
Qed.

Lemma slice_app (pre s post : jsstring) :
  slice (pre ++ s ++ post) (len pre) (len s) = s.
Proof.
  unfold slice, len. rewrite !Nat2Z.id.
  rewrite skipn_app, skipn_all, Nat.sub_diag. cbn [app skipn].
  rewrite firstn_app, firstn_all, Nat.sub_diag. cbn [firstn]. apply app_nil_r.
Qed.

Lemma len_uint32_bytes (n : Z) : len (uint32_bytes n) = 4.
Proof. reflexivity. Qed.

(** The constructor reads back a chunk that was encoded, wherever it lies
    in the buffer. *)
Lemma new_encode (pre tag payload post : jsstring) :
  List.length tag = 4%nat -> len payload < 2 ^ 31 ->
  new (pre ++ encode tag payload ++ post) (Some (len pre))
  = inr (mk tag payload 0).
Proof.
  intros Ht Hp. unfold encode.
  pose proof (len_nonneg pre) as Hpre. pose proof (len_nonneg payload) as Hpay.
  pose proof (len_nonneg post) as Hpost.
  assert (Hlt : len tag = 4) by (unfold len; rewrite Ht; reflexivity).
  assert (Hu : uint32_be (pre ++ (tag ++ uint32_bytes (len payload) ++ payload) ++ post)
                 (len pre + 4) = len payload).
  { rewrite uint32_be_app_r by lia. rewrite <- !app_assoc.
    rewrite <- Hlt at 1. replace (len tag) with (len tag + 0) by lia.
    rewrite uint32_be_app_r by lia.
    apply uint32_be_bytes. change (2 ^ 32) with 4294967296.
    change (2 ^ 31) with 2147483648 in Hp. lia. }
  rewrite new_success; rewrite ?Hu; rewrite ?len_app, ?len_uint32_bytes; try lia.
  f_equal. f_equal.
  - rewrite <- !app_assoc. rewrite <- Hlt. apply slice_app.
  - replace (len pre + 8) with (len (pre ++ tag ++ uint32_bytes (len payload)))
      by (rewrite !len_app, len_uint32_bytes; lia).
    rewrite <- !app_assoc.
    replace (pre ++ tag ++ uint32_bytes (len payload) ++ payload ++ post)
      with ((pre ++ tag ++ uint32_bytes (len payload)) ++ payload ++ post)
      by (rewrite <- !app_assoc; reflexivity).
    apply slice_app.
Qed.

Lemma len_encode (tag payload : jsstring) :
  List.length tag = 4%nat -> len (encode tag payload) = len payload + 8.
Proof.
  intros Ht. unfold encode. rewrite !len_app, len_uint32_bytes.
  unfold len at 1. rewrite Ht. lia.
Qed.

(** Reading on from the end of a prefix: the chunks that were encoded after
    it come back one by one, and the read after the last one throws. *)
Lemma children_loop_encodeAll (c pre : jsstring) (items : list (jsstring * jsstring)) :
  Forall wireItem items ->
  children_loop (mk c (pre ++ encodeAll items) (len pre)) = map packetOf items.
Proof.
  intros H. revert pre. induction H as [|[tag payload] rest [Ht Hp] Hrest IH]; intros pre.
  - apply (children_loop_inl _ EndOfPacketException).
    unfold readNextChunk. cbn [data offset encodeAll flat_map].
    rewrite new_header; [reflexivity|]. rewrite app_nil_r. lia.
  - cbn [fst snd] in Ht, Hp. cbn [encodeAll flat_map map fst snd].
    fold (encodeAll rest).
    rewrite (children_loop_inr _ (mk tag payload 0)
               (mk c (pre ++ encode tag payload ++ encodeAll rest)
                  (len (pre ++ encode tag payload)))).
    + f_equal. rewrite app_assoc. apply IH.
    + unfold readNextChunk. cbn [data offset code].
      rewrite (new_encode _ _ _ _ Ht Hp). cbn [bindR]. do 3 f_equal.
      unfold size. cbn [data]. rewrite len_app, (len_encode _ _ Ht).
      change HEADER_LENGTH with 8. lia.
Qed.

Lemma children_encodeAll (c : jsstring) (o : Z) (items : list (jsstring * jsstring)) :
  Forall wireItem items ->
  children (mk c (encodeAll items) o) = map packetOf items.
Proof. intros H. apply (children_loop_encodeAll c [] items H). Qed.

Lemma streq_refl (s : jsstring) : streq s s = true.
Proof. induction s as [|x s IH]; cbn; [reflexivity|]. rewrite Z.eqb_refl. exact IH. Qed.

Lemma streq_eq (a b : jsstring) : streq a b = true -> a = b.
Proof.
  revert b. induction a as [|x a IH]; intros [|y b]; cbn; try discriminate;
    [reflexivity|].
  intros H. apply andb_prop in H as [Hx Ha]. apply Z.eqb_eq in Hx.
  rewrite Hx, (IH _ Ha). reflexivity.
Qed.

(** X1.  Round trip of one chunk.  A chunk written as tag (four code
    units), big-endian length and payload (shorter than 2^31) is read back
    by the constructor at the position where it starts, whatever precedes
    and follows it in the buffer: same tag, same payload, and [size()] is
    the number of positions the chunk takes. *)
Theorem decode_encode (pre tag payload post : jsstring) :
  List.length tag = 4%nat -> len payload < 2 ^ 31 ->
  exists p,
    new (pre ++ encode tag payload ++ post) (Some (len pre)) = inr p /\
    code p = tag /\ codeEquals p tag = true /\
    convertToString p = payload /\
    size p = len (encode tag payload).
Proof.
  intros Ht Hp. exists (mk tag payload 0).
  split; [apply new_encode; assumption|].
  split; [reflexivity|]. split; [apply streq_refl|]. split; [reflexivity|].
  rewrite (len_encode _ _ Ht). reflexivity.
Qed.

Lemma decode_encode_witness :
  (List.length (lit "mlid") = 4%nat /\ len [0; 0; 0; 31] < 2 ^ 31) /\
  exists p,
    new (lit "junk" ++ encode (lit "mlid") [0; 0; 0; 31] ++ lit "more")
      (Some (len (lit "junk"))) = inr p /\
    code p = lit "mlid" /\ codeEquals p (lit "mlid") = true /\
    convertToString p = [0; 0; 0; 31] /\
    size p = len (encode (lit "mlid") [0; 0; 0; 31]).
Proof.
  assert (H1 : List.length (lit "mlid") = 4%nat) by reflexivity.
  assert (H2 : len [0; 0; 0; 31] < 2 ^ 31) by reflexivity.
  split; [split; assumption|].
  exact (decode_encode (lit "junk") (lit "mlid") [0; 0; 0; 31] (lit "more") H1 H2).
Defined.

(** X2.  Round trip of a container.  When a chunk is written with, as its
    payload, a sequence of chunks (each with a tag of four code units and a
    payload shorter than 2^31), the constructor reads it back and [seek]
    on the result returns, in the order written, exactly the chunks of the
    sequence whose tag is the one sought. *)
Theorem seek_encoded (c tag : jsstring) (items : list (jsstring * jsstring)) :
  List.length c = 4%nat -> len (encodeAll items) < 2 ^ 31 ->
  Forall wireItem items ->
  exists p p',
    new (encode c (encodeAll items)) None = inr p /\
    seek p tag
    = inr (map packetOf (filter (fun item => streq (fst item) tag) items), p').
Proof.
  intros Hc Hl Hitems. exists (mk c (encodeAll items) 0).
  destruct (seek_children (mk c (encodeAll items) 0) tag) as [p' Hseek].
  exists p'. split.
  - pose proof (new_encode [] c (encodeAll items) [] Hc Hl) as H.
    cbn [app] in H. rewrite app_nil_r in H. exact H.
  - rewrite Hseek, (children_encodeAll _ _ _ Hitems). do 2 f_equal.
    clear. induction items as [|item rest IH]; [reflexivity|].
    cbn [map filter]. unfold codeEquals at 1. cbn [packetOf code].
    destruct (streq (fst item) tag); cbn [map]; rewrite IH; reflexivity.
Qed.

Lemma seek_encoded_witness :
  let items := [(lit "mstt", [0; 0; 0; 200]); (lit "mlid", [0; 0; 0; 15]);
                (lit "mlid", [0; 0; 0; 4])] in
  (List.length (lit "mlog") = 4%nat /\ len (encodeAll items) < 2 ^ 31 /\
   Forall wireItem items) /\
  exists p p',
    new (encode (lit "mlog") (encodeAll items)) None = inr p /\
    seek p (lit "mlid")
    = inr ([mk (lit "mlid") [0; 0; 0; 15] 0; mk (lit "mlid") [0; 0; 0; 4] 0], p').
Proof.
  cbv zeta.
  assert (H1 : List.length (lit "mlog") = 4%nat) by reflexivity.
  assert (H2 : len (encodeAll [(lit "mstt", [0; 0; 0; 200]);
                               (lit "mlid", [0; 0; 0; 15]);
                               (lit "mlid", [0; 0; 0; 4])]) < 2 ^ 31) by reflexivity.
  assert (H3 : Forall wireItem [(lit "mstt", [0; 0; 0; 200]);
                                (lit "mlid", [0; 0; 0; 15]);
                                (lit "mlid", [0; 0; 0; 4])])
    by (repeat constructor).
  split; [repeat split; assumption|].
  exact (seek_encoded (lit "mlog") (lit "mlid") _ H1 H2 H3).
Defined.

(** ** How the operations of a packet compose *)

Lemma find_hd_filter {A} (f : A -> bool) (l : list A) :
  find f l = hd_error (filter f l).
Proof.
  induction l as [|a l IH]; [reflexivity|]. cbn. destruct (f a); [reflexivity|exact IH].
Qed.

(** X3.  [seekFirst] returns the first element of what [seek] returns for
    the same code, and [null] exactly when [seek] returns the empty array. *)
Theorem seekFirst_head_of_seek (p : t) (refCode : jsstring) :
  exists l p1 p2,
    seek p refCode = inr (l, p1) /\
    seekFirst p refCode = inr (hd_error l, p2) /\
    Forall (fun r => codeEquals r refCode = true) l.
Proof.
  destruct (seek_children p refCode) as [p1 H1].
  destruct (seekFirst_children p refCode) as [p2 H2].
  exists (filter (fun r => codeEquals r refCode) (children p)), p1, p2.
  split; [exact H1|]. split; [rewrite H2, find_hd_filter; reflexivity|].
  apply Forall_forall. intros r Hr. apply filter_In in Hr. apply Hr.
Qed.

Lemma readNextChunk_advance (p r p' : t) :
  readNextChunk p = inr (r, p') ->
  code p' = code p /\ data p' = data p /\
  offset p' = offset p + size r /\ 8 <= size r /\
  offset p + 8 <= len (data p).
Proof.
  intros H. pose proof (readNextChunk_progress _ _ _ H) as (Hc & Hd & _ & Hl).
  unfold readNextChunk, bindR in H.
  destruct (new (data p) (Some (offset p))) as [e|q]; [discriminate|].
  injection H as <- <-. cbn [offset].
  pose proof (len_nonneg (data q)). unfold size. change HEADER_LENGTH with 8 in *.
  repeat split; try assumption; lia.
Qed.

Lemma seekFirst_loop_cursor (p : t) (c : jsstring) :
  exists res p',
    seekFirst_loop p c = inr (res, p') /\
    code p' = code p /\ data p' = data p /\
    match res with
    | None => readNextChunk p' = inl EndOfPacketException
    | Some r =>
        codeEquals r c = true /\
        exists pre, children_loop p = pre ++ r :: children_loop p' /\
                    Forall (fun x => codeEquals x c = false) pre
    end.
Proof.
  funelim (seekFirst_loop p c); try not_end_of_packet.
  - exists None, p. repeat split. exact e.
  - exists (Some r), p'.
    pose proof (readNextChunk_advance _ _ _ e) as (Hc & Hd & _).
    repeat split; try assumption.
    exists []. split; [apply (children_loop_inr _ _ _ e)|constructor].
  - destruct H as (res & p'' & Hloop & Hc' & Hd' & Hres).
    pose proof (readNextChunk_advance _ _ _ e) as (Hc & Hd & _).
    exists res, p''. split; [exact Hloop|].
    split; [congruence|]. split; [congruence|].
    destruct res as [r2|]; [|exact Hres].
    destruct Hres as (Hr2 & pre & Hch & Hpre). split; [exact Hr2|].
    exists (r :: pre). split.
    + rewrite (children_loop_inr _ _ _ e), Hch. reflexivity.
    + constructor; assumption.
Qed.

Lemma seek_loop_cursor (p : t) (c : jsstring) (acc : list t) :
  exists l p',
    seek_loop p c acc = inr (l, p') /\
    code p' = code p /\ data p' = data p /\
    readNextChunk p' = inl EndOfPacketException.
Proof.
  funelim (seek_loop p c acc); try not_end_of_packet.
  - exists acc, p. repeat split. exact e.
  - destruct H as (l & p'' & Hloop & Hc' & Hd' & Hres).
    pose proof (readNextChunk_advance _ _ _ e) as (Hc & Hd & _).
    exists l, p''. repeat split; [exact Hloop|congruence|congruence|exact Hres].
  - destruct H as (l & p'' & Hloop & Hc' & Hd' & Hres).
    pose proof (readNextChunk_advance _ _ _ e) as (Hc & Hd & _).
    exists l, p''. repeat split; [exact Hloop|congruence|congruence|exact Hres].
Qed.

(** X4.  Where the shared cursor is left.  After [seekFirst] found a child,
    the packet is positioned just behind it: reading on with
    [readNextChunk] gives the children that follow that child, and none of
    the children before it has the code.  After [seekFirst] returned [null]
    the packet is read through: the next [readNextChunk] throws
    EndOfPacketException. *)
Theorem seekFirst_leaves_cursor (p : t) (refCode : jsstring) :
  exists res p',
    seekFirst p refCode = inr (res, p') /\
    code p' = code p /\ data p' = data p /\
    match res with
    | None => readNextChunk p' = inl EndOfPacketException
    | Some r =>
        codeEquals r refCode = true /\
        exists before,
          children p = before ++ r :: children_loop p' /\
          Forall (fun x => codeEquals x refCode = false) before
    end.
Proof. apply (seekFirst_loop_cursor (mk (code p) (data p) 0) refCode). Qed.

(** X5.  After [seek], whatever it returned, the packet is read through:
    the next [readNextChunk] throws EndOfPacketException, so a caller must
    not mix [seek] with its own [readNextChunk] loop on one packet. *)
Theorem seek_reads_through (p : t) (refCode : jsstring) :
  exists l p',
    seek p refCode = inr (l, p') /\
    code p' = code p /\ data p' = data p /\
    readNextChunk p' = inl EndOfPacketException.
Proof. apply (seek_loop_cursor (mk (code p) (data p) 0) refCode []). Qed.

Lemma children_loop_bound (p : t) :
  8 * Z.of_nat (List.length (children_loop p)) <= Z.max 0 (len (data p) - offset p).
Proof.
  funelim (children_loop p).
  - cbn [List.length]. lia.
  - pose proof (readNextChunk_advance _ _ _ e) as (_ & Hd & Ho & Hs & Hl).
    rewrite Hd, Ho in H. cbn [List.length]. lia.
Qed.

(** X6.  Every child takes at least the 8 positions of its header, so a
    packet has at most a child per 8 positions of payload; [seek] returns
    no more packets than that. *)
Theorem seek_bound (p : t) (refCode : jsstring) :
  8 * Z.of_nat (List.length (children p)) <= len (data p) /\
  exists l p', seek p refCode = inr (l, p') /\
               8 * Z.of_nat (List.length l) <= len (data p).
Proof.
  pose proof (children_loop_bound (mk (code p) (data p) 0)) as H.
  cbn [data offset] in H. pose proof (len_nonneg (data p)) as Hl.
  fold (children p) in H.
  split; [lia|].
  destruct (seek_children p refCode) as [p' Hs]. eexists. exists p'.
  split; [exact Hs|].
  pose proof (filter_length_le (fun r => codeEquals r refCode) (children p)). lia.
Qed.

(** ** The numbers of a stream *)

Lemma convertToInt_shift16 (p : t) :
  sar (convertToInt p) 16 = int16_be (data p).
Proof.
  rewrite convertToInt_toInt32, sar_16 by apply toInt32_range.
  rewrite Z.shiftr_div_pow2 by lia.
  unfold int16_be, toInt16, uint32_be. change (0 + 1) with 1.
  pose proof (byteAt_range (data p) 0) as H0.
  pose proof (byteAt_range (data p) 1) as H1.
  pose proof (byteAt_range (data p) (0 + 2)) as H2.
  pose proof (byteAt_range (data p) (0 + 3)) as H3.
  change (2 ^ 24) with 16777216 in *. change (2 ^ 16) with 65536 in *.
  change (2 ^ 8) with 256 in *. change (2 ^ 15) with 32768 in *.
  destruct (Z_lt_le_dec (byteAt (data p) 0) 128) as [Hlt|Hge].
  - rewrite toInt32_small by (change (2 ^ 31) with 2147483648; lia).
    Z.to_euclidean_division_equations. lia.
  - rewrite toInt32_high
      by (change (2 ^ 31) with 2147483648; change (2 ^ 32) with 4294967296; lia).
    change (2 ^ 32) with 4294967296.
    Z.to_euclidean_division_equations. lia.
Qed.

Lemma sar_minus_one : sar (-1) 16 = -1.
Proof. reflexivity. Qed.

(** X7.  What [>> 16] makes of bitrate and year.  For every [mlit] chunk
    [createDaapStream] returns a stream (it never throws); its [bitrate]
    and [year] are the first two payload bytes of the first [asbr] and
    [asyr] child read as big-endian signed 16-bit integers, whatever the
    length of the payload and whatever follows the two bytes, and -1 when
    there is no such child. *)
Theorem createDaapStream_shift16 (sid : option Z) (server : jsstring) (mlit : t) :
  exists st,
    createDaapStream sid server mlit = inr st /\
    Stream.bitrate st = fieldInt16 mlit "asbr" /\
    Stream.year st = fieldInt16 mlit "asyr".
Proof.
  unfold createDaapStream.
  rewrite !extractInt_field, !extractString_field. cbn [bindR].
  eexists. split; [reflexivity|]. cbn [Stream.bitrate Stream.year].
  unfold fieldInt, fieldInt16.
  split; (destruct (find _ _) as [chunk|];
          [apply convertToInt_shift16|apply sar_minus_one]).
Qed.

(** ** What convertToInt looks at *)

Lemma byteAt_nat (s : jsstring) (k : nat) :
  byteAt s (Z.of_nat k)
  = match nth_error s k with Some z => z mod 256 | None => 0 end.
Proof.
  destruct (nth_error s k) as [z|] eqn:H; [apply (byteAt_nth _ _ _ H)|].
  apply nth_error_None in H. unfold byteAt, charCodeAt, len.
  replace (Z.of_nat k <? Z.of_nat (List.length s)) with false
    by (symmetry; apply Z.ltb_ge; lia).
  rewrite andb_false_r. reflexivity.
Qed.

Lemma convertToInt_ext (p q : t) :
  (forall i, 0 <= i < 4 -> byteAt (data p) i = byteAt (data q) i) ->
  convertToInt p = convertToInt q.
Proof.
  intros H. rewrite !convertToInt_toInt32. f_equal. unfold uint32_be.
  rewrite (H 0), (H (0 + 1)), (H (0 + 2)), (H (0 + 3)) by lia. reflexivity.
Qed.

Lemma byteAt_Z (s : jsstring) (i : Z) :
  0 <= i ->
  byteAt s i = match nth_error s (Z.to_nat i) with Some z => z mod 256 | None => 0 end.
Proof. intros Hi. rewrite <- (Z2Nat.id i) at 1 by exact Hi. apply byteAt_nat. Qed.

(** X8.  [convertToInt] looks at the low 8 bits of the first four code
    units of the payload and at nothing else: code units that agree in
    their low 8 bits give the same integer (so the high byte that the
    x-user-defined charset adds does not matter), what follows the fourth
    code unit does not matter, and a payload shorter than four is read as
    if zero bytes followed it (the empty payload is 0). *)
Theorem convertToInt_reads (c : jsstring) (o : Z) (d : jsstring) :
  convertToInt (mk c (map (fun z => z mod 256) d) o) = convertToInt (mk c d o) /\
  (forall more, 4 <= len d -> convertToInt (mk c (d ++ more) o) = convertToInt (mk c d o)) /\
  (forall n, convertToInt (mk c (d ++ repeat 0 n) o) = convertToInt (mk c d o)) /\
  convertToInt (mk c [] o) = 0.
Proof.
  split; [|split; [|split; [|reflexivity]]].
  - apply convertToInt_ext. intros i Hi. cbn [data].
    rewrite !byteAt_Z by lia. rewrite nth_error_map.
    destruct (nth_error d (Z.to_nat i)); cbn; [apply Z.mod_mod; lia|reflexivity].
  - intros more Hd. apply convertToInt_ext. intros i Hi. cbn [data].
    rewrite !byteAt_Z by lia. rewrite nth_error_app1 by (unfold len in Hd; lia).
    reflexivity.
  - intros n. apply convertToInt_ext. intros i Hi. cbn [data].
    rewrite !byteAt_Z by lia.
    destruct (Nat.lt_ge_cases (Z.to_nat i) (List.length d)) as [Hlt|Hge].
    + rewrite nth_error_app1 by exact Hlt. reflexivity.
    + rewrite nth_error_app2 by exact Hge.
      rewrite (proj2 (nth_error_None d (Z.to_nat i)) Hge).
      destruct (nth_error (repeat 0 n) _) as [z|] eqn:Hz; [|reflexivity].
      apply nth_error_In, repeat_spec in Hz. rewrite Hz. reflexivity.
Qed.

Lemma convertToInt_reads_witness :
  4 <= len [0; 0; 0; 31] /\
  convertToInt (mk (lit "mlid") ([0; 0; 0; 31] ++ [7; 7]) 0)
  = convertToInt (mk (lit "mlid") [0; 0; 0; 31] 0).
Proof.
  assert (H : 4 <= len [0; 0; 0; 31]) by (vm_compute; discriminate).
  split; [exact H|].
  exact (proj1 (proj2 (convertToInt_reads (lit "mlid") 0 [0; 0; 0; 31])) [7; 7] H).
Defined.

(** ** What stays true of a client *)

Lemma new_throws (chunk : jsstring) (start : option Z) (e : exn) :
  new chunk start = inl e -> e = EndOfPacketException.
Proof.
  unfold new.
  repeat match goal with |- context [if ?b then _ else _] => destruct b end;
    congruence.
Qed.

Lemma execute_eq (request : RequestHandler) (w : World) :
  execute request w
  = if overrideMimeType w
    then (inr tt, set_pending (pending w ++ [request])
                    (set_sent (sent w ++ [requestFor w request]) w))
    else (inl (Error "Your browser does not support binary encoding, aborting ..."), w).
Proof.
  unfold execute, bind, gets, modify, throw.
  destruct (overrideMimeType w); reflexivity.
Qed.

Lemma sidUpdated_eq (l : Listener) (v : Z) (w : World) :
  sidUpdated l v w = execute (UpdateRequestHandler v l) (set_sid (Some v) w).
Proof. reflexivity. Qed.

Lemma fail_eq (request : RequestHandler) (code : Z) (w : World) :
  fail request code w
  = (inr tt, set_calls (calls w ++ [failCall request code]) w).
Proof. destruct request as [[f]|aSid [f]|aSid aRid aServer f]; reflexivity. Qed.

Lemma createDaapStream_streamOf (sid : option Z) (server : jsstring) (mlit : t) :
  createDaapStream sid server mlit = inr (streamOf sid server mlit).
Proof.
  unfold createDaapStream.
  rewrite !extractInt_field, !extractString_field. cbn [bindR].
  rewrite !sar_16 by apply fieldInt_range. reflexivity.
Qed.

Lemma createDaapStreams_streamOf (sid : option Z) (server : jsstring)
    (mlits : list t) (audioStreams : list Stream.t) :
  createDaapStreams sid server mlits audioStreams
  = inr (audioStreams ++ map (streamOf sid server) mlits).
Proof.
  revert audioStreams. induction mlits as [|mlit rest IH]; intros acc; cbn.
  - rewrite app_nil_r. reflexivity.
  - rewrite createDaapStream_streamOf. cbn [bindR].
    rewrite IH, <- app_assoc. reflexivity.
Qed.

(** What [handleResponse] does, in terms of the children of the packet. *)
Lemma handleResponse_eq (request : RequestHandler) (p : t) (w : World) :
  handleResponse request p w
  = match request with
    | LoginRequestHandler l =>
        match find (fun r => codeEquals r (lit "mlid")) (children p) with
        | Some chunk =>
            execute (UpdateRequestHandler (convertToInt chunk) l)
              (set_sid (Some (convertToInt chunk)) w)
        | None => (inl TypeError, w)
        end
    | UpdateRequestHandler _ (LoginListener f) =>
        match find (fun r => codeEquals r (lit "musr")) (children p) with
        | Some chunk =>
            (inr tt, set_calls (calls w ++ [mkCall f [VNumber 200]])
                       (set_rid (Some (convertToInt chunk)) w))
        | None => (inl TypeError, w)
        end
    | DatabaseRequestHandler aSid _ aServer f =>
        match find (fun r => codeEquals r (lit "mlcl")) (children p) with
        | Some mlcl =>
            (inr tt,
             set_calls
               (calls w ++
                [mkCall f
                   [VNumber 200;
                    VStreams (map (streamOf aSid aServer)
                                (filter (fun r => codeEquals r (lit "mlit"))
                                   (children mlcl)))]]) w)
        | None => (inl TypeError, w)
        end
    end.
Proof.
  destruct request as [l|aSid [f]|aSid aRid aServer f]; cbn [handleResponse];
    unfold bind, lift.
  - rewrite seekFirst_convertToInt_find.
    destruct (find _ _) as [chunk|]; reflexivity.
  - rewrite seekFirst_convertToInt_find.
    destruct (find _ _) as [chunk|]; reflexivity.
  - destruct (seekFirst_children p (lit "mlcl")) as [p' ->].
    destruct (find _ _) as [mlcl|]; [|reflexivity].
    destruct (seek_children mlcl (lit "mlit")) as [q ->].
    rewrite createDaapStreams_streamOf. reflexivity.
Qed.

(** What [onreadystatechange] does: a status other than 200 and a body
    that does not decode go to [fail], a body that decodes to
    [handleResponse], whose errors are let through. *)
Lemma onreadystatechange_eq (request : RequestHandler) (code : Z)
    (text : jsstring) (w : World) :
  onreadystatechange request code text w
  = if negb (code =? 200) then fail request code w
    else match new text None with
         | inl _ => fail request 400 w
         | inr p => handleResponse request p w
         end.
Proof.
  unfold onreadystatechange. destruct (negb (code =? 200)); [reflexivity|].
  unfold try_catch, bind, lift.
  destruct (new text None) as [e|p] eqn:Hn.
  - rewrite (new_throws _ _ _ Hn). reflexivity.
  - rewrite handleResponse_eq.
    destruct request as [l|aSid [f]|aSid aRid aServer f];
      destruct (find _ _) as [chunk|]; try reflexivity.
    rewrite execute_eq. destruct (overrideMimeType _); reflexivity.
Qed.

Section Consistent.

Variable ip0 : jsstring.
Variable port0 : option Z.

Lemma handler_ready_mono (w w' : World) (request : RequestHandler) :
  (sid w <> None -> sid w' <> None) -> server w' = server w ->
  handler_ready w request -> handler_ready w' request.
Proof.
  intros Hs Hv. destruct request; cbn; [trivial|exact Hs|].
  rewrite Hv. trivial.
Qed.

Lemma Forall_handler_ready_mono (w w' : World) (l : list RequestHandler) :
  (sid w <> None -> sid w' <> None) -> server w' = server w ->
  Forall (handler_ready w) l -> Forall (handler_ready w') l.
Proof.
  intros Hs Hv H. apply Forall_forall. intros r Hr. rewrite Forall_forall in H.
  apply (handler_ready_mono w w' r Hs Hv), H, Hr.
Qed.

Lemma consistent_calls (w : World) (c : Call) :
  consistent ip0 port0 w -> call_shape c ->
  consistent ip0 port0 (set_calls (calls w ++ [c]) w).
Proof.
  intros (H1 & H2 & H3 & H4 & H5 & H6 & H7 & H8) Hc.
  repeat split; try assumption.
  cbn. apply Forall_app. split; [exact H8|]. constructor; [exact Hc|constructor].
Qed.

Lemma consistent_sid (w : World) (v : Z) :
  consistent ip0 port0 w -> consistent ip0 port0 (set_sid (Some v) w).
Proof.
  intros (H1 & H2 & H3 & H4 & H5 & H6 & H7 & H8).
  repeat split; try assumption.
  - cbn. discriminate.
  - apply (Forall_handler_ready_mono w); cbn; [discriminate|reflexivity|exact H6].
Qed.

Lemma consistent_rid (w : World) (v : Z) :
  consistent ip0 port0 w -> sid w <> None ->
  consistent ip0 port0 (set_rid (Some v) w).
Proof.
  intros (H1 & H2 & H3 & H4 & H5 & H6 & H7 & H8) Hs.
  repeat split; try assumption.
  cbn. intros H. contradiction.
Qed.

Lemma consistent_execute (w : World) (request : RequestHandler) :
  consistent ip0 port0 w -> handler_ready w request ->
  consistent ip0 port0 (snd (execute request w)).
Proof.
  intros Hw Hr. rewrite execute_eq.
  destruct (overrideMimeType w) eqn:Hb; [|exact Hw]. cbn [snd].
  destruct Hw as (H1 & H2 & H3 & H4 & H5 & H6 & H7 & H8).
  repeat split; try assumption.
  - left. exact Hb.
  - change (Forall (handler_ready w) (pending w ++ [request])).
    apply Forall_app. split; [exact H6|]. constructor; [exact Hr|constructor].
  - change (Forall (request_to ip0 port0) (sent w ++ [requestFor w request])).
    apply Forall_app. split; [exact H7|]. constructor; [|constructor].
    unfold request_to, requestFor. cbn [url authorization].
    rewrite H1, H2, H3. split; [|reflexivity].
    exists (getUri request). rewrite <- !app_assoc. reflexivity.
Qed.

Lemma consistent_pop (w : World) (request : RequestHandler)
    (rest : list RequestHandler) :
  consistent ip0 port0 w -> pending w = request :: rest ->
  consistent ip0 port0 (set_pending rest w) /\
  handler_ready w request /\ overrideMimeType w = true.
Proof.
  intros (H1 & H2 & H3 & H4 & H5 & H6 & H7 & H8) Hp.
  rewrite Hp in H4, H6. apply Forall_cons_iff in H6 as [Hr Hrest].
  destruct H4 as [Hb|Hb]; [|discriminate].
  repeat split; try assumption.
  left. exact Hb.
Qed.

Lemma consistent_uncaught (w : World) (u : list exn) :
  consistent ip0 port0 w -> consistent ip0 port0 (set_uncaught u w).
Proof.
  intros (H1 & H2 & H3 & H4 & H5 & H6 & H7 & H8).
  repeat split; assumption.
Qed.

Lemma failCall_shape (request : RequestHandler) (code : Z) :
  code <> 200 -> call_shape (failCall request code).
Proof.
  intros Hc. destruct request as [[f]|aSid [f]|aSid aRid aServer f]; cbn.
  - left. eexists. reflexivity.
  - left. eexists. reflexivity.
  - right. left. exists code. split; [exact Hc|reflexivity].
Qed.

Lemma consistent_onreadystatechange (request : RequestHandler) (code : Z)
    (text : jsstring) (w : World) :
  consistent ip0 port0 w -> handler_ready w request ->
  consistent ip0 port0 (snd (onreadystatechange request code text w)).
Proof.
  intros Hw Hr. rewrite onreadystatechange_eq.
  destruct (negb (code =? 200)) eqn:Hc.
  - rewrite fail_eq. apply consistent_calls; [exact Hw|].
    apply failCall_shape. intros ->. discriminate Hc.
  - destruct (new text None) as [e|p].
    + rewrite fail_eq. apply consistent_calls; [exact Hw|].
      apply failCall_shape. discriminate.
    + rewrite handleResponse_eq.
      destruct request as [l|aSid [f]|aSid aRid aServer f];
        destruct (find _ _) as [chunk|]; try exact Hw.
      * apply consistent_execute; [apply consistent_sid, Hw|]. cbn. discriminate.
      * cbn [snd].
        apply (consistent_calls (set_rid (Some (convertToInt chunk)) w));
          [apply consistent_rid; [exact Hw|exact Hr]|].
        left. eexists. reflexivity.
      * cbn [snd]. apply consistent_calls; [exact Hw|].
        right. right. eexists. reflexivity.
Qed.

Lemma consistent_deliver (r : Response) (w : World) :
  consistent ip0 port0 w -> consistent ip0 port0 (deliver r w).
Proof.
  intros Hw. unfold deliver. destruct (pending w) as [|request rest] eqn:Hp;
    [exact Hw|].
  destruct (consistent_pop _ _ _ Hw Hp) as (Hw' & Hr & _).
  assert (Hr' : handler_ready (set_pending rest w) request)
    by (apply (handler_ready_mono w); trivial).
  pose proof (consistent_onreadystatechange request (status r) (responseText r)
                _ Hw' Hr') as H.
  destruct (onreadystatechange _ _ _ _) as [[e|[]] w']; cbn [snd] in H;
    [apply consistent_uncaught|]; exact H.
Qed.

Lemma consistent_step (w : World) (a : action) :
  consistent ip0 port0 w -> consistent ip0 port0 (step w a).
Proof.
  intros Hw. destruct a as [f|f|r]; cbn [step].
  - apply consistent_execute; [exact Hw|exact Logic.I].
  - unfold fetchStreams, checkLogin, bind, gets, throw, ret.
    destruct (sid w) as [s|] eqn:Hs; cbn [isNull orb]; [|exact Hw].
    destruct (rid w) as [v|] eqn:Hv; cbn [isNull]; [|exact Hw].
    rewrite Hs, Hv. apply consistent_execute; [exact Hw|].
    cbn. repeat split; discriminate.
  - apply consistent_deliver, Hw.
Qed.

Lemma consistent_steps (actions : list action) (w : World) :
  consistent ip0 port0 w -> consistent ip0 port0 (steps w actions).
Proof.
  revert w. induction actions as [|a rest IH]; intros w H; [exact H|].
  apply IH, consistent_step, H.
Qed.

End Consistent.

Lemma consistent_DaapClient (ip : jsstring) (port : option Z) (browser : bool) :
  consistent ip port (DaapClient ip port browser).
Proof.
  unfold consistent, DaapClient. cbn.
  repeat split; try (right; reflexivity); constructor.
Qed.






(** X9.  Where the requests go.  [execute] builds the URL from the [ip] and
    [port] arguments of the client, not from its [server] string, and no
    request of a client that was given no password carries an
    Authorization header.  With a port, every request sent goes to
    [server/...]; with the port omitted, every request goes to
    [http://ip:undefined/...], which is not under the client's server
    string [http://ip:/3689]. *)
Theorem requests_go_to_ip_port (ip : jsstring) (port : option Z) (browser : bool)
    (actions : list action) (r : Request) :
  let w0 := DaapClient ip port browser in
  In r (sent (steps w0 actions)) ->
  authorization r = None /\
  match port with
  | Some n => startsWith (url r) (server w0 ++ lit "/")
  | None => startsWith (url r) (lit "http://" ++ ip ++ lit ":undefined/") /\
            ~ startsWith (url r) (server w0)
  end.
Proof.
  cbv zeta. intros Hr.
  pose proof (consistent_steps ip port actions _ (consistent_DaapClient ip port browser))
    as (_ & _ & _ & _ & _ & _ & Hsent & _).
  rewrite Forall_forall in Hsent. destruct (Hsent r Hr) as [Hurl Hauth].
  split; [exact Hauth|]. destruct port as [n|]; cbn [portToString] in Hurl.
  - cbn [DaapClient server]. rewrite <- !app_assoc. exact Hurl.
  - split; [exact Hurl|]. cbn [DaapClient server].
    destruct Hurl as [r1 H1]. intros [r2 H2]. rewrite H1 in H2.
    rewrite <- !app_assoc in H2. apply app_inv_head in H2.
    apply app_inv_head in H2. discriminate H2.
Qed.

Lemma requests_go_to_ip_port_witness :
  let r := mkRequest (lit "http://10.0.1.6:undefined/login") None in
  In r (sent (steps (DaapClient (lit "10.0.1.6") None true) [Login (UserFunction 0)])) /\
  startsWith (url r) (lit "http://10.0.1.6:undefined/") /\
  ~ startsWith (url r) (lit "http://10.0.1.6:/3689").
Proof.
  cbv zeta.
  assert (Hs : sent (steps (DaapClient (lit "10.0.1.6") None true)
                       [Login (UserFunction 0)])
               = [mkRequest (lit "http://10.0.1.6:undefined/login") None])
    by (vm_compute; reflexivity).
  assert (Hin : In (mkRequest (lit "http://10.0.1.6:undefined/login") None)
                   (sent (steps (DaapClient (lit "10.0.1.6") None true)
                            [Login (UserFunction 0)])))
    by (rewrite Hs; left; reflexivity).
  split; [exact Hin|].
  exact (proj2 (requests_go_to_ip_port (lit "10.0.1.6") None true
                  [Login (UserFunction 0)] _ Hin)).
Defined.

(** X10.  The order of the handshake is kept.  Whatever the user and the
    server do, [rid] is never set while [sid] is [null], an update request
    only waits once [sid] is set, and a catalog request that waits was
    built with [sid] and [rid] both set and with the server string of the
    client. *)
Theorem session_order (ip : jsstring) (port : option Z) (browser : bool)
    (actions : list action) :
  let w := steps (DaapClient ip port browser) actions in
  (sid w = None -> rid w = None) /\
  (forall aSid l, In (UpdateRequestHandler aSid l) (pending w) -> sid w <> None) /\
  (forall aSid aRid aServer f,
     In (DatabaseRequestHandler aSid aRid aServer f) (pending w) ->
     aSid <> None /\ aRid <> None /\ aServer = server w).
Proof.
  cbv zeta.
  pose proof (consistent_steps ip port actions _ (consistent_DaapClient ip port browser))
    as (_ & _ & _ & _ & Hs & Hp & _).
  rewrite Forall_forall in Hp. split; [exact Hs|]. split.
  - intros aSid l Hin. apply (Hp _ Hin).
  - intros aSid aRid aServer f Hin. apply (Hp _ Hin).
Qed.

Lemma session_order_witness :
  let w := steps (DaapClient (lit "10.0.1.6") (Some 3690) true)
             [Login (UserFunction 0); Answer (mkResponse 200 mlog_chunk)] in
  In (UpdateRequestHandler 31 (LoginListener (UserFunction 0))) (pending w) /\
  sid w <> None.
Proof.
  cbv zeta.
  assert (Hp : pending (steps (DaapClient (lit "10.0.1.6") (Some 3690) true)
                          [Login (UserFunction 0); Answer (mkResponse 200 mlog_chunk)])
               = [UpdateRequestHandler 31 (LoginListener (UserFunction 0))])
    by (vm_compute; reflexivity).
  assert (Hin : In (UpdateRequestHandler 31 (LoginListener (UserFunction 0)))
                   (pending (steps (DaapClient (lit "10.0.1.6") (Some 3690) true)
                      [Login (UserFunction 0); Answer (mkResponse 200 mlog_chunk)])))
    by (rewrite Hp; left; reflexivity).
  split; [exact Hin|].
  exact (proj1 (proj2 (session_order (lit "10.0.1.6") (Some 3690) true
                         [Login (UserFunction 0); Answer (mkResponse 200 mlog_chunk)]))
           31 (LoginListener (UserFunction 0)) Hin).
Defined.

(** X11.  How callbacks are called.  Every call of a callback has one of
    three forms: [callback(code)]; [callback(code, undefined)] with a code
    other than 200; [callback(200, streams)].  So an array of streams
    always comes with 200 and [undefined] never does. *)
Theorem callbacks_called (ip : jsstring) (port : option Z) (browser : bool)
    (actions : list action) (c : Call) :
  In c (calls (steps (DaapClient ip port browser) actions)) ->
  (exists code, args c = [VNumber code]) \/
  (exists code, code <> 200 /\ args c = [VNumber code; VUndefined]) \/
  (exists streams, args c = [VNumber 200; VStreams streams]).
Proof.
  intros Hc.
  pose proof (consistent_steps ip port actions _ (consistent_DaapClient ip port browser))
    as (_ & _ & _ & _ & _ & _ & _ & Hcalls).
  rewrite Forall_forall in Hcalls. apply (Hcalls c Hc).
Qed.

Lemma callbacks_called_witness :
  let c := mkCall (UserFunction 0) [VNumber 401] in
  In c (calls (steps (DaapClient (lit "10.0.1.6") (Some 3690) true)
                 [Login (UserFunction 0); Answer (mkResponse 401 [])])) /\
  ((exists code, args c = [VNumber code]) \/
   (exists code, code <> 200 /\ args c = [VNumber code; VUndefined]) \/
   (exists streams, args c = [VNumber 200; VStreams streams])).
Proof.
  cbv zeta.
  assert (Hc : calls (steps (DaapClient (lit "10.0.1.6") (Some 3690) true)
                        [Login (UserFunction 0); Answer (mkResponse 401 [])])
               = [mkCall (UserFunction 0) [VNumber 401]])
    by (vm_compute; reflexivity).
  assert (Hin : In (mkCall (UserFunction 0) [VNumber 401])
                   (calls (steps (DaapClient (lit "10.0.1.6") (Some 3690) true)
                      [Login (UserFunction 0); Answer (mkResponse 401 [])])))
    by (rewrite Hc; left; reflexivity).
  split; [exact Hin|].
  exact (callbacks_called (lit "10.0.1.6") (Some 3690) true
           [Login (UserFunction 0); Answer (mkResponse 401 [])] _ Hin).
Defined.





Lemma step_inert (w : World) (a : action) :
  overrideMimeType w = false -> pending w = [] -> step w a = w.
Proof.
  intros Hb Hp. destruct a as [f|f|r]; cbn [step].
  - unfold login. rewrite execute_eq, Hb. reflexivity.
  - unfold fetchStreams, checkLogin, bind, gets, throw, ret.
    destruct (isNull (sid w) || isNull (rid w)); [reflexivity|].
    rewrite execute_eq, Hb. reflexivity.
  - unfold deliver. rewrite Hp. reflexivity.
Qed.

(** X14.  A browser whose XMLHttpRequest has no [overrideMimeType].  There
    [login] and [fetchStreams] do nothing but throw: whatever is tried, the
    client stays exactly as it was built, so no request is ever sent and no
    callback is ever called. *)
Theorem no_binary_no_request (ip : jsstring) (port : option Z)
    (actions : list action) :
  steps (DaapClient ip port false) actions = DaapClient ip port false.
Proof.
  induction actions as [|a rest IH] using rev_ind; [reflexivity|].
  unfold steps in *. rewrite fold_left_app. cbn [fold_left]. rewrite IH.
  apply step_inert; reflexivity.
Qed.

(** ** Answers that fail *)

(** X15.  An answer with a status other than 200, or a 200 whose body the
    constructor cannot decode, is handed to [fail] of the oldest request
    that waits, with the status, or with 400 for the body that does not
    decode: a login or update request calls [callback(code)], a catalog
    request [callback(code, undefined)].  Nothing else changes, and the
    request no longer waits. *)
Theorem answer_refused_or_undecodable (w : World) (request : RequestHandler)
    (rest : list RequestHandler) (code : Z) (text : jsstring) :
  pending w = request :: rest ->
  code <> 200 \/ new text None = inl EndOfPacketException ->
  deliver (mkResponse code text) w
  = set_calls (calls w ++ [failCall request (if code =? 200 then 400 else code)])
      (set_pending rest w).
Proof.
  intros Hp H. unfold deliver. rewrite Hp. cbn [status responseText].
  rewrite onreadystatechange_eq.
  destruct (Z.eqb_spec code 200) as [->|Hc]; cbn [negb].
  - destruct H as [H|H]; [contradiction|]. rewrite H, fail_eq. reflexivity.
  - rewrite fail_eq. reflexivity.
Qed.

Lemma answer_refused_or_undecodable_witness :
  let w := snd (login (UserFunction 0) (DaapClient (lit "10.0.1.6") (Some 3690) true)) in
  calls (deliver (mkResponse 200 [109; 108; 111; 103; 0]) w)
  = [mkCall (UserFunction 0) [VNumber 400]].
Proof.
  cbv zeta.
  assert (Hp : pending (snd (login (UserFunction 0)
                               (DaapClient (lit "10.0.1.6") (Some 3690) true)))
               = [LoginRequestHandler (LoginListener (UserFunction 0))])
    by (vm_compute; reflexivity).
  rewrite (answer_refused_or_undecodable _ _ _ 200 [109; 108; 111; 103; 0] Hp
             (or_intror eq_refl)).
  reflexivity.
Defined.

Lemma fetchStreams_throws (callback : Callback) (w : World) :
  sid w = None \/ rid w = None ->
  fetchStreams callback w = (inl (Error "Login not completed."), w).
Proof.
  intros H. unfold fetchStreams, checkLogin, bind, gets, throw.
  destruct H as [-> | ->]; [reflexivity|].
  destruct (sid w); reflexivity.
Qed.

(** X16.  A login that stops half way.  When the login request is answered
    with an [mlid] and the update request is refused with a status other
    than 200, the callback is called once, with that status, and the
    client is left with [sid] set and [rid] as it was; with [rid] still
    [null], [fetchStreams] then throws "Login not completed." and sends
    nothing. *)
Theorem update_refused (w : World) (callback other : Callback)
    (text1 text2 : jsstring) (p1 c1 : t) (code : Z) :
  overrideMimeType w = true -> pending w = [] ->
  new text1 None = inr p1 ->
  find (fun r => codeEquals r (lit "mlid")) (children p1) = Some c1 ->
  code <> 200 ->
  let w' := run [mkResponse 200 text1; mkResponse code text2]
              (snd (login callback w)) in
  calls w' = calls w ++ [mkCall callback [VNumber code]] /\
  sid w' = Some (convertToInt c1) /\ rid w' = rid w /\ pending w' = [] /\
  (rid w = None ->
   fetchStreams other w' = (inl (Error "Login not completed."), w')).
Proof.
  intros Hb Hp H1 Hc1 Hcode. after_login Hb Hp.
  next_answer. rewrite (login_answer _ _ _ _ H1), Hc1.
  unfold sidUpdated, bind, modify. rewrite execute_sends by exact Hb.
  cbn [pending set_pending set_sent set_sid app].
  change (run [?r] ?x) with (deliver r x).
  erewrite answer_refused_or_undecodable by (reflexivity || (left; exact Hcode)).
  replace (code =? 200) with false by (symmetry; apply Z.eqb_neq; exact Hcode).
  cbn. repeat split.
  intros Hr. apply fetchStreams_throws. cbn. right. exact Hr.
Qed.

Lemma update_refused_witness :
  let w := DaapClient (lit "10.0.1.6") (Some 3690) true in
  let w' := run [mkResponse 200 mlog_chunk; mkResponse 503 []]
              (snd (login (UserFunction 0) w)) in
  calls w' = [mkCall (UserFunction 0) [VNumber 503]] /\
  sid w' = Some 31 /\ rid w' = None /\
  fetchStreams (UserFunction 1) w' = (inl (Error "Login not completed."), w').
Proof.
  cbv zeta.
  assert (H1 : new mlog_chunk None = inr mlog_packet) by (vm_compute; reflexivity).
  assert (Hc1 : find (fun r => codeEquals r (lit "mlid")) (children mlog_packet)
                = Some mlid_31) by (vm_compute; reflexivity).
  assert (Hcode : 503 <> 200) by discriminate.
  destruct (update_refused (DaapClient (lit "10.0.1.6") (Some 3690) true)
              (UserFunction 0) (UserFunction 1) mlog_chunk [] mlog_packet mlid_31 503
              eq_refl eq_refl H1 Hc1 Hcode) as (Hcalls & Hsid & Hrid & _ & Hf).
  split; [exact Hcalls|]. split; [exact Hsid|]. split; [exact Hrid|].
  exact (Hf eq_refl).
Defined.

(** ** A whole session *)

(** X17.  The requests of a session.  For a client built with a port, a
    login answered with [mlid] and [musr] followed by [fetchStreams] sends
    three requests, in this order: [login], [update?session-id=mlid] and
    [databases/1/items?type=music&session-id=mlid&revision-id=musr&meta=]
    with the eleven field names, all under [server/]. *)
Theorem session_requests (ip : jsstring) (n : Z) (f g : Callback)
    (text1 text2 : jsstring) (p1 p2 c1 c2 : t) :
  new text1 None = inr p1 ->
  find (fun r => codeEquals r (lit "mlid")) (children p1) = Some c1 ->
  new text2 None = inr p2 ->
  find (fun r => codeEquals r (lit "musr")) (children p2) = Some c2 ->
  let w0 := DaapClient ip (Some n) true in
  let w := steps w0 [Login f; Answer (mkResponse 200 text1);
                     Answer (mkResponse 200 text2); FetchStreams g] in
  map url (sent w)
  = [server w0 ++ lit "/login";
     server w0 ++ lit "/update?session-id=" ++ numToString (convertToInt c1);
     server w0 ++ lit "/databases/1/items?type=music&session-id="
     ++ numToString (convertToInt c1) ++ lit "&revision-id="
     ++ numToString (convertToInt c2)
     ++ lit "&meta=dmap.itemid,daap.songformat,dmap.itemname,daap.songalbum,daap.songartist,daap.songgenre,daap.songtracknumber,daap.songtime,daap.songsize,daap.songyear,daap.songbitrate"] /\
  pending w = [DatabaseRequestHandler (Some (convertToInt c1))
                 (Some (convertToInt c2)) (server w0) g] /\
  calls w = [mkCall f [VNumber 200]].
Proof.
  intros H1 Hc1 H2 Hc2. cbv zeta.
  change (steps ?w [Login f; Answer ?r1; Answer ?r2; FetchStreams g])
    with (snd (fetchStreams g (run [r1; r2] (snd (login f w))))).
  assert (Hb : overrideMimeType (DaapClient ip (Some n) true) = true) by reflexivity.
  assert (Hp : pending (DaapClient ip (Some n) true) = []) by reflexivity.
  after_login Hb Hp.
  next_answer. rewrite (login_answer _ _ _ _ H1), Hc1.
  unfold sidUpdated, bind, modify. rewrite execute_sends by exact Hb.
  cbn [pending set_pending set_sent set_sid app].
  next_answer. rewrite (update_answer _ _ _ _ _ H2), Hc2.
  cbn [run fold_left].
  unfold fetchStreams, checkLogin, bind, gets, ret.
  cbn [sid rid set_calls set_rid set_sid set_pending set_sent isNull orb].
  rewrite execute_sends by reflexivity.
  cbn. rewrite <- !app_assoc. repeat split.
Qed.

Lemma session_requests_witness :
  let w := steps (DaapClient (lit "10.0.1.6") (Some 3690) true)
             [Login (UserFunction 0); Answer (mkResponse 200 mlog_chunk);
              Answer (mkResponse 200 mupd_chunk); FetchStreams (UserFunction 1)] in
  map url (sent w)
  = [lit "http://10.0.1.6:3690/login";
     lit "http://10.0.1.6:3690/update?session-id=31";
     lit "http://10.0.1.6:3690/databases/1/items?type=music&session-id=31&revision-id=5&meta=dmap.itemid,daap.songformat,dmap.itemname,daap.songalbum,daap.songartist,daap.songgenre,daap.songtracknumber,daap.songtime,daap.songsize,daap.songyear,daap.songbitrate"].
Proof.
  cbv zeta.
  assert (H1 : new mlog_chunk None = inr mlog_packet) by (vm_compute; reflexivity).
  assert (Hc1 : find (fun r => codeEquals r (lit "mlid")) (children mlog_packet)
                = Some mlid_31) by (vm_compute; reflexivity).
  assert (H2 : new mupd_chunk None = inr mupd_packet) by (vm_compute; reflexivity).
  assert (Hc2 : find (fun r => codeEquals r (lit "musr")) (children mupd_packet)
                = Some musr_5) by (vm_compute; reflexivity).
  rewrite (proj1 (session_requests (lit "10.0.1.6") 3690 (UserFunction 0)
                    (UserFunction 1) mlog_chunk mupd_chunk mlog_packet mupd_packet
                    mlid_31 musr_5 H1 Hc1 H2 Hc2)).
  vm_compute. reflexivity.
Defined.

(** X18.  A catalog answer without [mlcl].  When the catalog request is
    answered with a 200 whose body decodes and has no [mlcl] child,
    [handleResponse] calls [seek] on [null]: the TypeError is let through,
    the callback of [fetchStreams] is never called for that request, and
    nothing is left waiting. *)
Theorem catalog_without_mlcl (w : World) (callback : Callback) (text : jsstring)
    (p : t) (s r : Z) (later : list Response) :
  overrideMimeType w = true -> pending w = [] ->
  sid w = Some s -> rid w = Some r ->
  new text None = inr p ->
  (forall child, In child (children p) -> codeEquals child (lit "mlcl") = false) ->
  let w' := run (mkResponse 200 text :: later) (snd (fetchStreams callback w)) in
  calls w' = calls w /\
  uncaught w' = uncaught w ++ [TypeError] /\
  pending w' = [].
Proof.
  intros Hb Hp Hs Hr Hnew Hno. cbv zeta.
  unfold fetchStreams, checkLogin, bind, gets. rewrite Hs, Hr. cbn [isNull orb ret].
  rewrite (execute_sends _ _ Hb). cbn [fst snd]. rewrite Hp, ?Hs, ?Hr. cbn [app].
  next_answer. rewrite onreadystatechange_eq, Hnew, handleResponse_eq.
  rewrite (find_none_iff _ _ Hno). cbn [negb Z.eqb Pos.eqb].
  rewrite run_idle by reflexivity. cbn. repeat split.
Qed.

Lemma catalog_without_mlcl_witness :
  let w' := run [mkResponse 200 mstt_only_chunk]
              (snd (fetchStreams (UserFunction 1) logged_in)) in
  calls w' = calls logged_in /\ uncaught w' = [TypeError] /\ pending w' = [].
Proof.
  cbv zeta.
  assert (Hb : overrideMimeType logged_in = true) by (vm_compute; reflexivity).
  assert (Hp : pending logged_in = []) by (vm_compute; reflexivity).
  assert (Hs : sid logged_in = Some 31) by (vm_compute; reflexivity).
  assert (Hr : rid logged_in = Some 5) by (vm_compute; reflexivity).
  assert (Hu : uncaught logged_in = []) by (vm_compute; reflexivity).
  assert (H1 : new mstt_only_chunk None = inr mstt_only_packet)
    by (vm_compute; reflexivity).
  assert (Hc : children mstt_only_packet = [mk (lit "mstt") [0; 0; 0; 200] 0])
    by (vm_compute; reflexivity).
  assert (Hno : forall child, In child (children mstt_only_packet) ->
                              codeEquals child (lit "mlcl") = false).
  { intros child Hin. rewrite Hc in Hin. destruct Hin as [<-|[]]. reflexivity. }
  destruct (catalog_without_mlcl logged_in (UserFunction 1) mstt_only_chunk
              mstt_only_packet 31 5 [] Hb Hp Hs Hr H1 Hno) as (Hcalls & Hunc & Hpend).
  rewrite Hu in Hunc. split; [exact Hcalls|]. split; [exact Hunc|exact Hpend].
Defined.

(** ** The password *)

Section PasswordProperties.

Variable btoa : jsstring -> result jsstring.

(** X19.  [secureLogin] with a password.  When [btoa] encodes
    ["admin:" + password], the login request and the update request that
    follows it carry [Authorization: Basic] and the encoded string, and so
    does every request sent afterwards, a plain [login] included: the
    password stays set.  When [btoa] throws, [secureLogin] throws the same
    error before anything is sent, and the client is as it was. *)
Theorem secureLogin_password (w : World) (f g : Callback) (password : jsstring)
    (text : jsstring) (p c : t) :
  overrideMimeType w = true -> pending w = [] ->
  new text None = inr p ->
  find (fun r => codeEquals r (lit "mlid")) (children p) = Some c ->
  (forall encoded,
     btoa (lit "admin:" ++ password) = inr encoded ->
     let basic := Some (lit "Basic " ++ encoded) in
     let w' := run [mkResponse 200 text]
                 (snd (secureLogin btoa (Some password) f w)) in
     fst (secureLogin btoa (Some password) f w) = inr tt /\
     map authorization (sent w') = map authorization (sent w) ++ [basic; basic] /\
     map authorization (sent (snd (login g w')))
     = map authorization (sent w) ++ [basic; basic; basic]) /\
  (forall e,
     btoa (lit "admin:" ++ password) = inl e ->
     secureLogin btoa (Some password) f w = (inl e, w)).
Proof.
  intros Hb Hp Hnew Hc. split.
  - intros encoded Henc. cbv zeta.
    unfold secureLogin, setPassword, bind, lift, modify. rewrite Henc.
    unfold login. rewrite execute_sends by exact Hb. cbn [fst snd].
    split; [reflexivity|].
    cbn [pending set_encodedPassword set_pending set_sent]. rewrite Hp. cbn [app].
    next_answer. rewrite (login_answer _ _ _ _ Hnew), Hc.
    unfold sidUpdated, bind, modify. rewrite execute_sends by exact Hb.
    cbn [run fold_left snd]. rewrite execute_sends by exact Hb.
    cbn. rewrite !map_app. cbn. rewrite <- !app_assoc. split; reflexivity.
  - intros e He. unfold secureLogin, setPassword, bind, lift. rewrite He.
    reflexivity.
Qed.

End PasswordProperties.

Lemma secureLogin_password_witness :
  let btoa := fun _ : jsstring => @inr exn jsstring (lit "YWRtaW46c2VjcmV0") in
  let w := DaapClient (lit "10.0.1.6") (Some 3690) true in
  let w' := run [mkResponse 200 mlog_chunk]
              (snd (secureLogin btoa (Some (lit "secret")) (UserFunction 0) w)) in
  map authorization (sent w')
  = [Some (lit "Basic YWRtaW46c2VjcmV0"); Some (lit "Basic YWRtaW46c2VjcmV0")].
Proof.
  cbv zeta.
  assert (H1 : new mlog_chunk None = inr mlog_packet) by (vm_compute; reflexivity).
  assert (Hc1 : find (fun r => codeEquals r (lit "mlid")) (children mlog_packet)
                = Some mlid_31) by (vm_compute; reflexivity).
  exact (proj1 (proj2 (proj1 (secureLogin_password
           (fun _ : jsstring => @inr exn jsstring (lit "YWRtaW46c2VjcmV0"))
           (DaapClient (lit "10.0.1.6") (Some 3690) true)
           (UserFunction 0) (UserFunction 1) (lit "secret") mlog_chunk
           mlog_packet mlid_31 eq_refl eq_refl H1 Hc1)
           (lit "YWRtaW46c2VjcmV0") eq_refl))).
Defined.

(** ** The ids of the streams *)

Lemma lit_inj (a b : string) : lit a = lit b -> a = b.
Proof.
  revert b. induction a as [|x a IH]; intros [|y b]; cbn; try discriminate;
    [reflexivity|].
  intros H. injection H as Hx Ha. apply N2Z.inj in Hx.
  rewrite <- (ascii_N_embedding x), <- (ascii_N_embedding y), Hx, (IH _ Ha).
  reflexivity.
Qed.

Lemma to_int_not_nil (z : Z) : Z.to_int z <> Decimal.Pos Decimal.Nil /\
                               Z.to_int z <> Decimal.Neg Decimal.Nil.
Proof.
  destruct z as [|p|p]; cbn; split; try discriminate;
    intros H; injection H as H; apply (DecimalPos.Unsigned.to_uint_nonnil _ H).
Qed.

Lemma numToString_inj (a b : Z) : numToString a = numToString b -> a = b.
Proof.
  unfold numToString. intros H. apply lit_inj in H.
  apply (f_equal NilZero.int_of_string) in H.
  destruct (to_int_not_nil a) as [Ha1 Ha2]. destruct (to_int_not_nil b) as [Hb1 Hb2].
  rewrite !NilZero.isi in H by assumption.
  injection H as H. apply DecimalZ.to_int_inj, H.
Qed.

(** X20.  The ids of the streams of one session.  Two streams built for
    the same session have the same [id] exactly when their [mlit] chunks
    hold the same item id, that is the same integer in their first [miid]
    child, or no [miid] child at all, which counts as -1. *)
Theorem stream_id_injective (sid : Z) (server : jsstring) (m1 m2 : t)
    (st1 st2 : Stream.t) :
  createDaapStream (Some sid) server m1 = inr st1 ->
  createDaapStream (Some sid) server m2 = inr st2 ->
  (Stream.id st1 = Stream.id st2 <-> fieldInt m1 "miid" = fieldInt m2 "miid").
Proof.
  rewrite !createDaapStream_streamOf. intros H1 H2.
  injection H1 as <-. injection H2 as <-. cbn [streamOf Stream.id idToString].
  split.
  - intros H. apply app_inv_head in H. apply app_inv_head in H.
    apply numToString_inj, H.
  - intros ->. reflexivity.
Qed.

Lemma stream_id_injective_witness :
  exists st1 st2,
    createDaapStream (Some 31) (lit "http://10.0.1.6:3690") mlit_packet = inr st1 /\
    createDaapStream (Some 31) (lit "http://10.0.1.6:3690") mstt_only_packet = inr st2 /\
    Stream.id st1 = lit "31-100" /\ Stream.id st2 = lit "31--1" /\
    (Stream.id st1 = Stream.id st2
     <-> fieldInt mlit_packet "miid" = fieldInt mstt_only_packet "miid").
Proof.
  exists (streamOf (Some 31) (lit "http://10.0.1.6:3690") mlit_packet).
  exists (streamOf (Some 31) (lit "http://10.0.1.6:3690") mstt_only_packet).
  assert (H1 : createDaapStream (Some 31) (lit "http://10.0.1.6:3690") mlit_packet
               = inr (streamOf (Some 31) (lit "http://10.0.1.6:3690") mlit_packet))
    by apply createDaapStream_streamOf.
  assert (H2 : createDaapStream (Some 31) (lit "http://10.0.1.6:3690") mstt_only_packet
               = inr (streamOf (Some 31) (lit "http://10.0.1.6:3690") mstt_only_packet))
    by apply createDaapStream_streamOf.
  split; [exact H1|]. split; [exact H2|].
  split; [vm_compute; reflexivity|]. split; [vm_compute; reflexivity|].
  exact (stream_id_injective 31 _ _ _ _ _ H1 H2).
Defined.

(** ** The handler under lib and the handler of the built client *)

(** X21.  The two versions of the catalog handler.  For every [mlit] chunk
    the [createDaapStream] of src/lib/DatabaseRequestHandler.js and that of
    the built client both return a stream, with the same [uri], [id],
    [trackNumber], [title], [album], [artist] and [genre]; the request URI
    of the built client is that of the lib version followed by four more
    field names. *)
Theorem lib_and_built_agree (sid rid : option Z) (server : jsstring) (mlit : t)
    (f : Callback) :
  (exists a b,
     Lib.createDaapStream sid server mlit = inr a /\
     createDaapStream sid server mlit = inr b /\
     Lib.uri a = Stream.uri b /\ Lib.id a = Stream.id b /\
     Lib.trackNumber a = Stream.trackNumber b /\ Lib.title a = Stream.title b /\
     Lib.album a = Stream.album b /\ Lib.artist a = Stream.artist b /\
     Lib.genre a = Stream.genre b) /\
  getUri (DatabaseRequestHandler sid rid server f)
  = Lib.getUri sid rid
    ++ lit ",daap.songtime,daap.songsize,daap.songyear,daap.songbitrate".
Proof.
  split.
  - unfold Lib.createDaapStream. rewrite createDaapStream_streamOf.
    rewrite !extractInt_field, !extractString_field. cbn [bindR].
    eexists. eexists. split; [reflexivity|]. split; [reflexivity|].
    cbn. repeat split.
  - unfold getUri, Lib.getUri. rewrite <- !app_assoc. do 4 f_equal.
Qed.

(** ** Codes of other lengths, and lengths of 2^31 and more *)

Lemma readNextChunk_code (p r p' : t) :
  readNextChunk p = inr (r, p') -> 0 <= offset p ->
  List.length (code r) = 4%nat.
Proof.
  intros H Ho. pose proof (readNextChunk_advance _ _ _ H) as (_ & _ & _ & _ & Hl).
  unfold readNextChunk, new, bindR in H.
  destruct (len (data p) - offset p <? HEADER_LENGTH); [discriminate|].
  destruct (len (data p) - offset p <? HEADER_LENGTH + _); [discriminate|].
  injection H as <- _. cbn [code]. unfold CODE_LENGTH.
  rewrite substring_in_range by lia. unfold slice.
  rewrite length_firstn, length_skipn. unfold len in Hl. lia.
Qed.

Lemma children_loop_codes (p : t) :
  0 <= offset p ->
  Forall (fun r => List.length (code r) = 4%nat) (children_loop p).
Proof.
  funelim (children_loop p); intros Ho; [constructor|].
  pose proof (readNextChunk_advance _ _ _ e) as (_ & _ & Hoff & Hs & _).
  constructor; [apply (readNextChunk_code _ _ _ e Ho)|].
  apply H. lia.
Qed.

(** X22.  The code of every child has four code units, and [codeEquals]
    compares whole strings; so [seekFirst] with a code that is not four
    code units long returns [null] and [seek] returns the empty array,
    whatever the packet holds. *)
Theorem seek_other_length (p : t) (refCode : jsstring) :
  List.length refCode <> 4%nat ->
  Forall (fun r => List.length (code r) = 4%nat) (children p) /\
  exists p1 p2,
    seekFirst p refCode = inr (None, p1) /\ seek p refCode = inr ([], p2).
Proof.
  intros Hlen.
  assert (Hc : Forall (fun r => List.length (code r) = 4%nat) (children p))
    by (apply children_loop_codes; cbn; lia).
  split; [exact Hc|].
  assert (Hno : forall r, In r (children p) -> codeEquals r refCode = false).
  { intros r Hr. rewrite Forall_forall in Hc. specialize (Hc r Hr).
    unfold codeEquals. destruct (streq (code r) refCode) eqn:He; [|reflexivity].
    apply streq_eq in He. rewrite He in Hc. contradiction. }
  destruct (seekFirst_children p refCode) as [p1 H1].
  destruct (seek_children p refCode) as [p2 H2].
  exists p1, p2. rewrite H1, H2, (find_none_iff _ _ Hno). split; [reflexivity|].
  do 2 f_equal. clear - Hno. induction (children p) as [|a l IH]; [reflexivity|].
  cbn. rewrite (Hno a (or_introl eq_refl)). apply IH.
  intros r Hr. apply Hno. right. exact Hr.
Qed.

Lemma seek_other_length_witness :
  List.length (lit "other") <> 4%nat /\
  exists p1 p2,
    seekFirst mlog_packet (lit "other") = inr (None, p1) /\
    seek mlog_packet (lit "other") = inr ([], p2).
Proof.
  assert (H : List.length (lit "other") <> 4%nat) by discriminate.
  split; [exact H|].
  exact (proj2 (seek_other_length mlog_packet (lit "other") H)).
Defined.

(** X23.  A length field of 2^31 or more.  With at least a header left at
    a position [o] that is not negative, the constructor does not throw
    for such a field, however short the buffer: the size is read as the
    negative number [- k] with [k = 2^32 - length], and the payload of the
    packet is what [substring] returns for an end before its start, the
    [k] code units that end with the header (all [o + 8] of them when
    there are fewer).  [size()] is 8 more than that. *)
Theorem new_length_wraps (b : jsstring) (o : Z) :
  0 <= o -> 8 <= len b - o -> 2 ^ 31 <= uint32_be b (o + 4) ->
  let k := 2 ^ 32 - uint32_be b (o + 4) in
  exists p,
    new b (Some o) = inr p /\
    code p = slice b o 4 /\
    data p = slice b (Z.max 0 (o + 8 - k)) (Z.min k (o + 8)) /\
    size p = 8 + Z.min k (o + 8).
Proof.
  intros Ho Hh Hu. cbv zeta.
  pose proof (uint32_be_range b (o + 4)) as Hr.
  assert (Hsize : readUInt32 b (o + 4) = uint32_be b (o + 4) - 2 ^ 32)
    by (rewrite readUInt32_toInt32; apply toInt32_high; lia).
  assert (Hnew : new b (Some o)
                 = inr (mk (slice b o 4)
                          (slice b (Z.max 0 (o + 8 - (2 ^ 32 - uint32_be b (o + 4))))
                             (Z.min (2 ^ 32 - uint32_be b (o + 4)) (o + 8))) 0)).
  { unfold new. change HEADER_LENGTH with 8. change CODE_LENGTH with 4.
    replace (len b - o <? 8) with false by (symmetry; apply Z.ltb_ge; lia).
    rewrite Hsize.
    replace (len b - o <? 8 + (uint32_be b (o + 4) - 2 ^ 32)) with false
      by (symmetry; apply Z.ltb_ge; lia).
    rewrite (substring_in_range b o (o + 4)) by lia.
    replace (o + 4 - o) with 4 by lia.
    do 2 f_equal. unfold substring, slice.
    change (2 ^ 32) with 4294967296 in *. change (2 ^ 31) with 2147483648 in *.
    f_equal; [|f_equal]; lia. }
  eexists. split; [exact Hnew|]. cbn [code data]. split; [reflexivity|].
  split; [reflexivity|]. unfold size. cbn [data]. change HEADER_LENGTH with 8.
  rewrite len_slice; change (2 ^ 32) with 4294967296 in *;
    change (2 ^ 31) with 2147483648 in *; lia.
Qed.

Lemma new_length_wraps_witness :
  (0 <= 0 /\ 8 <= len huge_length_chunk - 0 /\
   2 ^ 31 <= uint32_be huge_length_chunk (0 + 4)) /\
  exists p,
    new huge_length_chunk (Some 0) = inr p /\
    data p = huge_length_chunk /\ size p = 16.
Proof.
  assert (H0 : 0 <= 0) by lia.
  assert (H1 : 8 <= len huge_length_chunk - 0) by (vm_compute; discriminate).
  assert (H2 : 2 ^ 31 <= uint32_be huge_length_chunk (0 + 4))
    by (vm_compute; discriminate).
  split; [repeat split; assumption|].
  destruct (new_length_wraps huge_length_chunk 0 H0 H1 H2) as (p & Hn & _ & Hd & Hs).
  exists p. split; [exact Hn|]. split; [exact Hd|exact Hs].
Defined.
